(** * gz-sim [Server]: lifecycle and per-world forwarding

    A shallow embedding of [src/Server.cc] (class [gz::sim::Server]) and
    the properties of its public interface.

    The server owns a [ServerPrivate] object ([dataPtr]).  Every method is
    embedded as a function on that object: a [const] query returns its
    value, a method that changes the object returns its value together with
    the new object.  The per-world execution engine ([SimulationRunner]) and
    the SDFormat parser are collaborators whose code is not in [Server.cc];
    they appear as interfaces (type classes), so that every theorem about
    the server holds for any engine and any parser. *)

From Stdlib Require Import NArith ZArith String Ascii.
From stdpp Require Import base option list strings numbers.

(** ** Basic types *)

(** [gz::sim::Entity] is a 64-bit unsigned identifier. *)
Definition Entity := N.

(** [std::chrono::steady_clock::duration]: a signed tick count. *)
Definition duration := Z.

(** [SystemPluginPtr] and [std::shared_ptr<System>] are handles; only
    their identity matters to the server, which passes them on unread. *)
Definition SystemPluginPtr := N.
Definition SystemPtr := N.

(** The line feed that ends the console messages. *)
Definition nl : string := String (ascii_of_nat 10) EmptyString.

(** ** The SDFormat document object model (external library) *)

Module sdf.

Record Error := { code : nat; message : string }.
Definition Errors := list Error.

Inductive Plugin :=
| LogRecord
| Named (filename : string).

Record Model := { model_name : string }.

Record World := {
  world_name : string;
  models : list Model;
  plugins : list Plugin;
}.

(** [sdf::Root]: a list of worlds and, for a file that holds a model
    outside any world, that model. *)
Record Root := {
  worlds : list World;
  model : option Model;          (* [Root::Model()], [nullptr] as [None] *)
}.

(** A default-constructed [sdf::Root]. *)
Definition empty : Root := {| worlds := []; model := None |}.

(** [Root::WorldByIndex]: [nullptr] when the index is out of range. *)
Definition WorldByIndex (i : nat) (r : Root) : option World := worlds r !! i.

Definition ModelNameExists (n : string) (w : World) : bool :=
  existsb (fun m => String.eqb (model_name m) n) (models w).

(** [World::AddModel]: refuses a second model of the same name,
    otherwise appends. *)
Definition AddModel (m : Model) (w : World) : bool * World :=
  if ModelNameExists (model_name m) w then (false, w)
  else (true, {| world_name := world_name w;
                 models := models w ++ [m];
                 plugins := plugins w |}).

(** The parser and validator.  [LoadSdfString] and [Load] are called on
    an empty root and give its new content with the errors found;
    [UpdateGraphs] re-validates a root (it rebuilds the frame and pose
    graphs, which are not part of the content modelled here). *)
Class Parser := {
  LoadSdfString : string -> Root * Errors;
  Load : string -> Root * Errors;
  UpdateGraphs : Root -> Errors;
}.

End sdf.

(** ** [ServerConfig] *)

(** Modelled from the spec: [ServerConfig.hh] is not among the sources.
    The fields are the accessors that the constructor of the server reads:
    the kind of source with its payload, the asset cache directory, the
    request for the recording module and the optional step period. *)

Module ServerConfig.

Inductive SourceType := kNone | kSdfRoot | kSdfFile | kSdfString.

Record t := {
  Source : SourceType;
  SdfRoot : option sdf.Root;
  SdfFile : string;
  SdfString : string;
  ResourceCache : string;
  UseLogRecord : bool;
  UpdatePeriod : option duration;
}.

(** A default-constructed configuration: no source. *)
Definition default : t :=
  {| Source := kNone; SdfRoot := None; SdfFile := EmptyString;
     SdfString := EmptyString; ResourceCache := EmptyString;
     UseLogRecord := false; UpdatePeriod := None |}.

End ServerConfig.

(** ** The per-world execution engine *)

Module SimulationRunner.

(** Modelled from the spec: [SimulationRunner.hh] is not among the
    sources.  These are the methods that [Server.cc] calls, which section 6
    lists as the interface of the execution engine.  A [const] method is a
    function of the runner; the others return the runner after the call. *)
Class Engine (R : Type) := {
  Create : sdf.World -> ServerConfig.t -> R;
  Run : N -> R -> bool * R;
  Stop : R -> R;
  SetPaused : bool -> R -> R;
  Paused : R -> bool;
  Running : R -> bool;
  IterationCount : R -> N;
  EntityCount : R -> N;
  SystemCount : R -> N;
  HasEntity : string -> R -> bool;
  EntityByName : string -> R -> option Entity;
  RequestRemoveEntity_name : string -> bool -> R -> bool * R;
  RequestRemoveEntity_entity : Entity -> bool -> R -> bool * R;
  AddSystem_plugin : SystemPluginPtr -> R -> R;
  AddSystem_shared : SystemPtr -> R -> R;
  SetUpdatePeriod : duration -> R -> R;
  SetNextStepAsBlockingPaused : bool -> R -> R;
}.

End SimulationRunner.

(** ** [ServerPrivate] *)

(** The state of [runThread].  A default-constructed [std::thread] has the
    id [std::thread::id()]; once a thread has been assigned the handle keeps
    its id, also after the thread function has returned.  The thread runs
    [ServerPrivate::Run(iterations, &cond)], and the stages are the ones of
    that function. *)
Inductive thread :=
| Started (iterations : N)     (* created, [running] not yet set *)
| Looping (iterations : N)     (* [running] set and signalled, loop still to run *)
| Looped                       (* the run loop has exited, [running] still set *)
| Exited.                      (* [running] cleared, the thread function has returned *)

(** How a call of [Run] stands when its sequential part is over: it has
    returned a value, or its caller is blocked in [cond.wait]. *)
Inductive completion :=
| returns (b : bool)
| waits.

(** The members of [ServerPrivate] that [Server.cc] reads or writes
    ([ServerPrivate.hh] is not among the sources). *)
Record ServerPrivate (R : Type) := mkServerPrivate {
  config : ServerConfig.t;
  sdfRoot : sdf.Root;
  simRunners : list R;
  running : bool;
  sigHandlerInitialized : bool;      (* [sigHandler.Initialized()] *)
  runThread : option thread;         (* [None]: no thread was ever assigned *)
  threadsCreated : nat;              (* instrumentation, not a member of the
                                        class: how many times a
                                        [std::thread] was started *)
}.

Arguments mkServerPrivate {R}.
Arguments config {R}.
Arguments sdfRoot {R}.
Arguments simRunners {R}.
Arguments running {R}.
Arguments sigHandlerInitialized {R}.
Arguments runThread {R}.
Arguments threadsCreated {R}.

Section Setters.
Context {R : Type}.

Definition set_config (c : ServerConfig.t) (d : ServerPrivate R) :=
  mkServerPrivate c (sdfRoot d) (simRunners d) (running d)
    (sigHandlerInitialized d) (runThread d) (threadsCreated d).

Definition set_sdfRoot (r : sdf.Root) (d : ServerPrivate R) :=
  mkServerPrivate (config d) r (simRunners d) (running d)
    (sigHandlerInitialized d) (runThread d) (threadsCreated d).

Definition set_simRunners (rs : list R) (d : ServerPrivate R) :=
  mkServerPrivate (config d) (sdfRoot d) rs (running d)
    (sigHandlerInitialized d) (runThread d) (threadsCreated d).

Definition set_running (b : bool) (d : ServerPrivate R) :=
  mkServerPrivate (config d) (sdfRoot d) (simRunners d) b
    (sigHandlerInitialized d) (runThread d) (threadsCreated d).

(** Assigning a newly started thread to [runThread]. *)
Definition start_thread (t : thread) (d : ServerPrivate R) :=
  mkServerPrivate (config d) (sdfRoot d) (simRunners d) (running d)
    (sigHandlerInitialized d) (Some t) (S (threadsCreated d)).

Definition set_runThread (t : option thread) (d : ServerPrivate R) :=
  mkServerPrivate (config d) (sdfRoot d) (simRunners d) (running d)
    (sigHandlerInitialized d) t (threadsCreated d).

(** [new ServerPrivate]: no runner, not running, no thread.  Whether the
    signal handler could be installed is decided by the process. *)
Definition new_ServerPrivate (sigInit : bool) : ServerPrivate R :=
  mkServerPrivate ServerConfig.default sdf.empty [] false sigInit None 0.

End Setters.

(** ** Console output *)

(** What the constructor writes with [gzmsg] and [gzerr].  An SDFormat
    error is kept as a value: its printed form belongs to the parser. *)
Inductive log_entry :=
| gzmsg (text : string)
| gzerr (text : string)
| gzerr_sdf (e : sdf.Error).

(** The entries written with [gzerr]. *)
Definition is_error_entry (e : log_entry) : bool :=
  match e with
  | gzmsg _ => false
  | gzerr _ => true
  | gzerr_sdf _ => true
  end.

(** [DefaultWorld::World()] *)
Definition DefaultWorld : string :=
  "<?xml version='1.0'?>" +:+
  "<sdf version='1.6'>" +:+
    "<world name='default'>" +:+
    "</world>" +:+
  "</sdf>".

(** * The server *)

Module Server.
Section Server.

Context {R : Type} `{!SimulationRunner.Engine R} `{!sdf.Parser}.

(** [resolveSdfWorldFile(file, cacheDir)] of [gz/sim/Util.hh]: the path
    of the world file, empty when it cannot be found. *)
Variable resolveSdfWorldFile : string -> string -> string.

Abbreviation state := (ServerPrivate R).

(** [for (auto &runner : simRunners) runner->f(...)] *)
Definition for_each_runner (f : R -> R) (d : state) : state :=
  set_simRunners (f <$> simRunners d) d.

(** [simRunners[_worldIndex]] under the guard
    [_worldIndex < simRunners.size()]: [None] is the failed guard. *)
Definition runner_at (worldIndex : nat) (d : state) : option R :=
  simRunners d !! worldIndex.

(** [simRunners[_worldIndex]->f(...)] for an [f] that changes the runner. *)
Definition update_runner (worldIndex : nat) (r : R) (d : state) : state :=
  set_simRunners (<[worldIndex := r]> (simRunners d)) d.

(** ** Helpers of [ServerPrivate] *)

(** Every runner executes [iterations] steps; the result tells whether
    all of them ran to the end. *)
Fixpoint run_all (iterations : N) (rs : list R) : bool * list R :=
  match rs with
  | [] => (true, [])
  | r :: rs' =>
      let '(ok, r') := SimulationRunner.Run iterations r in
      let '(oks, rs'') := run_all iterations rs' in
      (ok && oks, r' :: rs'')
  end.

(** Modelled from the spec: [ServerPrivate::Run] is not in [Server.cc].
    The state is Running for the duration of the run loop, which
    executes [iterations] steps of every world, and the call returns
    only after the loop exits. *)
Definition ServerPrivate_Run (iterations : N) (d : state) : bool * state :=
  let d := set_running true d in
  let '(result, rs) := run_all iterations (simRunners d) in
  (result, set_running false (set_simRunners rs d)).

(** Modelled from the spec: [ServerPrivate::Stop] is not in [Server.cc].
    It leaves the Running state and requests every world runner to halt;
    it does not wait for a run loop to return. *)
Definition ServerPrivate_Stop (d : state) : state :=
  for_each_runner SimulationRunner.Stop (set_running false d).

(** Modelled from the spec: [ServerPrivate::CreateEntities] is not in
    [Server.cc].  It creates one execution engine per world of the
    resolved scene, in the order of the scene. *)
Definition ServerPrivate_CreateEntities (d : state) : state :=
  set_simRunners
    (simRunners d ++
     ((fun w => SimulationRunner.Create w (config d)) <$> sdf.worlds (sdfRoot d)))
    d.

(** Modelled from the spec: [ServerPrivate::AddRecordPlugin] is not in
    [Server.cc].  The recording extension module is attached to every
    world of the scene. *)
Definition ServerPrivate_AddRecordPlugin (c : ServerConfig.t) (d : state) : state :=
  set_sdfRoot
    {| sdf.worlds :=
         (fun w => {| sdf.world_name := sdf.world_name w;
                      sdf.models := sdf.models w;
                      sdf.plugins := sdf.plugins w ++ [sdf.LogRecord] |})
           <$> sdf.worlds (sdfRoot d);
       sdf.model := sdf.model (sdfRoot d) |}
    d.

(** ** [Server::SetUpdatePeriod] *)
Definition SetUpdatePeriod (updatePeriod : duration) (worldIndex : nat)
    (d : state) : unit * state :=
  match runner_at worldIndex d with
  | Some r =>
      (tt, update_runner worldIndex
             (SimulationRunner.SetUpdatePeriod updatePeriod r) d)
  | None => (tt, d)
  end.

(** ** [Server::Server] *)

(** How the [switch] over the source is left: by [return], or by [break]
    with the errors collected so far. *)
Inductive switch_exit :=
| Return (d : state) (out : list log_entry)
| Break (d : state) (errors : sdf.Errors) (out : list log_entry).

Definition is_empty {A} (l : list A) : bool :=
  match l with [] => true | _ => false end.

Definition is_Some_bool {A} (o : option A) : bool :=
  match o with Some _ => true | None => false end.

Definition string_empty (s : string) : bool :=
  match s with EmptyString => true | _ => false end.

(** [world->AddModel(m)] where [world] is [root.WorldByIndex(i)]: the
    world is changed in place, the result of [AddModel] is not read. *)
Definition add_model_to_world (i : nat) (m : sdf.Model) (world : sdf.World)
    (root : sdf.Root) : sdf.Root :=
  {| sdf.worlds := <[i := snd (sdf.AddModel m world)]> (sdf.worlds root);
     sdf.model := sdf.model root |}.

Definition load_source (c : ServerConfig.t) (d : state) : switch_exit :=
  match ServerConfig.Source c with
  | ServerConfig.kSdfRoot =>
      (* [SetSdfRoot] stores the root together with the source kind *)
      Break (set_sdfRoot (default sdf.empty (ServerConfig.SdfRoot c)) d) []
        [gzmsg ("Loading SDF world from SDF DOM." +:+ nl)]
  | ServerConfig.kSdfString =>
      let msg := "Loading SDF string. " in
      let msg :=
        if string_empty (ServerConfig.SdfFile c)
        then msg +:+ "File path not available." +:+ nl
        else msg +:+ ("File path [" +:+ ServerConfig.SdfFile c +:+ "]." +:+ nl) in
      let '(root, errors) := sdf.LoadSdfString (ServerConfig.SdfString c) in
      Break (set_sdfRoot root d) errors [gzmsg msg]
  | ServerConfig.kSdfFile =>
      let filePath :=
        resolveSdfWorldFile (ServerConfig.SdfFile c) (ServerConfig.ResourceCache c) in
      if string_empty filePath then
        Return d [gzerr ("Failed to find world [" +:+ ServerConfig.SdfFile c +:+ "]" +:+ nl)]
      else
        let out := [gzmsg ("Loading SDF world file[" +:+ filePath +:+ "]." +:+ nl)] in
        let '(fileRoot, errors) := sdf.Load filePath in
        if is_empty errors then
          match sdf.model fileRoot with
          | None => Break (set_sdfRoot fileRoot d) errors out
          | Some m =>
              (* the file only contains a model: load the default world
                 and add the model to it *)
              let '(root, errors) := sdf.LoadSdfString DefaultWorld in
              match sdf.WorldByIndex 0 root with
              | None => Return (set_sdfRoot root d) out
              | Some world =>
                  let root := add_model_to_world 0 m world root in
                  let errors :=
                    if is_empty errors then sdf.UpdateGraphs root else errors in
                  Break (set_sdfRoot root d) errors out
              end
          end
        else Break d errors out
  | ServerConfig.kNone =>
      let '(root, errors) := sdf.LoadSdfString DefaultWorld in
      Break (set_sdfRoot root d) errors [gzmsg ("Loading default world." +:+ nl)]
  end.

(** The constructor, from the object made by [new ServerPrivate].  The
    set-up of the script interpreter, of the asset client and of the
    transport does not touch the fields modelled here. *)
Definition Server_ctor (sigInit : bool) (c : ServerConfig.t)
    : state * list log_entry :=
  let d := set_config c (new_ServerPrivate sigInit) in
  match load_source c d with
  | Return d out => (d, out)
  | Break d errors out =>
      if negb (is_empty errors) then (d, out ++ (gzerr_sdf <$> errors))
      else
        let d := if ServerConfig.UseLogRecord c
                 then ServerPrivate_AddRecordPlugin c d else d in
        let d := ServerPrivate_CreateEntities d in
        let d := match ServerConfig.UpdatePeriod c with
                 | Some p => snd (SetUpdatePeriod p 0 d)
                 | None => d
                 end in
        (d, out)
  end.

(** ** [Server::Run] *)

(** The call up to the point where it returns or blocks.  A blocking
    call returns when the run loop has exited.  A non-blocking call that
    starts the thread then stands in [cond.wait] (line 247), which has
    released the mutex: what it returns, and whether it returns, is decided
    by [wait_result] in the state in which the caller takes the mutex
    again. *)
Definition Run (blocking : bool) (iterations : N) (paused : bool)
    (d : state) : completion * state :=
  (* Set the initial pause state of each simulation runner. *)
  let d := for_each_runner (SimulationRunner.SetPaused paused) d in
  (* Check the current state, and return early if preconditions are not met. *)
  if negb (sigHandlerInitialized d) then (returns false, d)
  else if running d then (returns false, d)
  else if blocking then
    let '(result, d) := ServerPrivate_Run iterations d in (returns result, d)
  else
    (* Make sure two threads are not created *)
    match runThread d with
    | None => (waits, start_thread (Started iterations) d)
    | Some _ => (returns false, d)
    end.


(** Modelled from the spec: the thread started by a non-blocking [Run]
    executes [ServerPrivate::Run], which is not in [Server.cc].  It marks
    the state Running and signals the condition at once, runs the loop,
    and leaves the Running state when the loop has exited.  These are its
    three stages; between any two of them the other threads can act. *)
Definition thread_start (d : state) : state :=
  match runThread d with
  | Some (Started iterations) =>
      set_runThread (Some (Looping iterations)) (set_running true d)
  | _ => d
  end.

Definition thread_loop (d : state) : state :=
  match runThread d with
  | Some (Looping iterations) =>
      let '(_, rs) := run_all iterations (simRunners d) in
      set_runThread (Some Looped) (set_simRunners rs d)
  | _ => d
  end.

Definition thread_exit (d : state) : state :=
  match runThread d with
  | Some Looped => set_runThread (Some Exited) (set_running false d)
  | _ => d
  end.

(** ** [Server::RunOnce] *)
Definition RunOnce (paused : bool) (d : state) : completion * state :=
  let d :=
    if paused
    then for_each_runner (SimulationRunner.SetNextStepAsBlockingPaused true) d
    else d in
  Run true 1 paused d.

(** ** Queries *)

(** [Server::Running() const] *)
Definition Running (d : state) : bool := running d.

(** [Server::Running(unsigned int) const] *)
Definition Running_world (worldIndex : nat) (d : state) : option bool :=
  match runner_at worldIndex d with
  | Some r => Some (SimulationRunner.Running r)
  | None => None
  end.

Definition Paused (worldIndex : nat) (d : state) : option bool :=
  match runner_at worldIndex d with
  | Some r => Some (SimulationRunner.Paused r)
  | None => None
  end.

Definition IterationCount (worldIndex : nat) (d : state) : option N :=
  match runner_at worldIndex d with
  | Some r => Some (SimulationRunner.IterationCount r)
  | None => None
  end.

Definition EntityCount (worldIndex : nat) (d : state) : option N :=
  match runner_at worldIndex d with
  | Some r => Some (SimulationRunner.EntityCount r)
  | None => None
  end.

Definition SystemCount (worldIndex : nat) (d : state) : option N :=
  match runner_at worldIndex d with
  | Some r => Some (SimulationRunner.SystemCount r)
  | None => None
  end.

Definition HasEntity (name : string) (worldIndex : nat) (d : state) : bool :=
  match runner_at worldIndex d with
  | Some r => SimulationRunner.HasEntity name r
  | None => false
  end.

Definition EntityByName (name : string) (worldIndex : nat) (d : state)
    : option Entity :=
  match runner_at worldIndex d with
  | Some r => SimulationRunner.EntityByName name r
  | None => None
  end.

(** ** Per-world mutators *)

Definition SetPaused (paused : bool) (worldIndex : nat) (d : state)
    : bool * state :=
  match runner_at worldIndex d with
  | Some r =>
      (true, update_runner worldIndex (SimulationRunner.SetPaused paused r) d)
  | None => (false, d)
  end.

(** [Server::AddSystem(const SystemPluginPtr &, unsigned int)] *)
Definition AddSystem_plugin (system : SystemPluginPtr) (worldIndex : nat)
    (d : state) : option bool * state :=
  (* Do not allow running more than once. *)
  if running d then (Some false, d)
  else
    match runner_at worldIndex d with
    | Some r =>
        (Some true,
         update_runner worldIndex (SimulationRunner.AddSystem_plugin system r) d)
    | None => (None, d)
    end.

(** [Server::AddSystem(const std::shared_ptr<System> &, unsigned int)] *)
Definition AddSystem_shared (system : SystemPtr) (worldIndex : nat)
    (d : state) : option bool * state :=
  if running d then (Some false, d)
  else
    match runner_at worldIndex d with
    | Some r =>
        (Some true,
         update_runner worldIndex (SimulationRunner.AddSystem_shared system r) d)
    | None => (None, d)
    end.

(** [Server::RequestRemoveEntity(const std::string &, bool, unsigned int)] *)
Definition RequestRemoveEntity_name (name : string) (recursive : bool)
    (worldIndex : nat) (d : state) : bool * state :=
  match runner_at worldIndex d with
  | Some r =>
      let '(ok, r') := SimulationRunner.RequestRemoveEntity_name name recursive r in
      (ok, update_runner worldIndex r' d)
  | None => (false, d)
  end.

(** [Server::RequestRemoveEntity(const Entity, bool, unsigned int)] *)
Definition RequestRemoveEntity_entity (entity : Entity) (recursive : bool)
    (worldIndex : nat) (d : state) : bool * state :=
  match runner_at worldIndex d with
  | Some r =>
      let '(ok, r') := SimulationRunner.RequestRemoveEntity_entity entity recursive r in
      (ok, update_runner worldIndex r' d)
  | None => (false, d)
  end.

(** ** [Server::Stop] *)
Definition Stop (d : state) : unit * state := (tt, ServerPrivate_Stop d).

(** ** The public interface as data *)

(** The per-world calls whose only guard is the world index. *)
Inductive indexed_call :=
| call_Running
| call_Paused
| call_IterationCount
| call_EntityCount
| call_SystemCount
| call_HasEntity (name : string)
| call_EntityByName (name : string)
| call_RequestRemoveEntity_name (name : string) (recursive : bool)
| call_RequestRemoveEntity_entity (entity : Entity) (recursive : bool)
| call_SetPaused (paused : bool)
| call_SetUpdatePeriod (updatePeriod : duration).

(** What a call hands back, by the return type of the method:
    [void], [bool], or [std::optional] of a value. *)
Inductive returned :=
| ret_void
| ret_bool (b : bool)
| ret_optional_bool (o : option bool)
| ret_optional_count (o : option N)
| ret_optional_entity (o : option Entity).

(** [std::nullopt], the absent marker. *)
Definition is_nullopt (r : returned) : bool :=
  match r with
  | ret_optional_bool None
  | ret_optional_count None
  | ret_optional_entity None => true
  | _ => false
  end.

Definition invoke (c : indexed_call) (worldIndex : nat) (d : state)
    : returned * state :=
  match c with
  | call_Running => (ret_optional_bool (Running_world worldIndex d), d)
  | call_Paused => (ret_optional_bool (Paused worldIndex d), d)
  | call_IterationCount => (ret_optional_count (IterationCount worldIndex d), d)
  | call_EntityCount => (ret_optional_count (EntityCount worldIndex d), d)
  | call_SystemCount => (ret_optional_count (SystemCount worldIndex d), d)
  | call_HasEntity name => (ret_bool (HasEntity name worldIndex d), d)
  | call_EntityByName name =>
      (ret_optional_entity (EntityByName name worldIndex d), d)
  | call_RequestRemoveEntity_name name recursive =>
      let '(b, d') := RequestRemoveEntity_name name recursive worldIndex d in
      (ret_bool b, d')
  | call_RequestRemoveEntity_entity entity recursive =>
      let '(b, d') := RequestRemoveEntity_entity entity recursive worldIndex d in
      (ret_bool b, d')
  | call_SetPaused paused =>
      let '(b, d') := SetPaused paused worldIndex d in (ret_bool b, d')
  | call_SetUpdatePeriod updatePeriod =>
      let '(_, d') := SetUpdatePeriod updatePeriod worldIndex d in (ret_void, d')
  end.

(** What happens to a server after its construction: calls of its
    methods, and the stages of the thread that a non-blocking [Run]
    started. *)
Inductive event :=
| ev_indexed (c : indexed_call) (worldIndex : nat)
| ev_AddSystem_plugin (system : SystemPluginPtr) (worldIndex : nat)
| ev_AddSystem_shared (system : SystemPtr) (worldIndex : nat)
| ev_Run (blocking : bool) (iterations : N) (paused : bool)
| ev_RunOnce (paused : bool)
| ev_Stop
| ev_thread_start
| ev_thread_loop
| ev_thread_exit.

Definition step (e : event) (d : state) : state :=
  match e with
  | ev_indexed c worldIndex => snd (invoke c worldIndex d)
  | ev_AddSystem_plugin system worldIndex =>
      snd (AddSystem_plugin system worldIndex d)
  | ev_AddSystem_shared system worldIndex =>
      snd (AddSystem_shared system worldIndex d)
  | ev_Run blocking iterations paused => snd (Run blocking iterations paused d)
  | ev_RunOnce paused => snd (RunOnce paused d)
  | ev_Stop => snd (Stop d)
  | ev_thread_start => thread_start d
  | ev_thread_loop => thread_loop d
  | ev_thread_exit => thread_exit d
  end.

(** The events of a history, oldest first. *)
Definition steps (es : list event) (d : state) : state :=
  foldl (fun d e => step e d) d es.

(** ** [RunOnce] as the specification words it *)

(** Mark the next step of every world as a blocking-paused step. *)
Definition mark_next_step_blocking_paused (d : state) : state :=
  set_simRunners
    ((fun r => SimulationRunner.SetNextStepAsBlockingPaused true r) <$> simRunners d)
    d.

(** Sugar for a blocking [Run] of one iteration; a paused request first
    marks the next step of every world, then delegates. *)
Definition RunOnce_spec (paused : bool) (d : state) : completion * state :=
  match paused with
  | true => Run true 1 true (mark_next_step_blocking_paused d)
  | false => Run true 1 false d
  end.

(** ** Vocabulary of the properties *)

(** The state in which the [switch] over the source is left. *)
Definition exit_state (x : switch_exit) : state :=
  match x with
  | Return d _ => d
  | Break d _ _ => d
  end.

(** The number of world runners and the bookkeeping of the thread. *)
Definition frame (d : state) : nat * option thread * nat :=
  (length (simRunners d), runThread d, threadsCreated d).

(** The thread handle and the thread count go together: a thread was
    started exactly when the handle is no longer the default one. *)
Definition thread_accounted (d : state) : Prop :=
  threadsCreated d = match runThread d with None => 0 | Some _ => 1 end.



(** All of the server but the content of its world runners. *)
Definition outside_runners (d : state)
    : ServerConfig.t * sdf.Root * bool * bool * option thread * nat * nat :=
  (config d, sdfRoot d, running d, sigHandlerInitialized d, runThread d,
   threadsCreated d, length (simRunners d)).

(** The results by which a call tells that it did nothing: the absent
    marker, a plain [false], or the nothing of a [void] method. *)
Definition is_refusal (r : returned) : bool :=
  match r with
  | ret_void => true
  | ret_bool b => negb b
  | ret_optional_bool o => negb (default false o)
  | ret_optional_count o => negb (is_Some_bool o)
  | ret_optional_entity o => negb (is_Some_bool o)
  end.

End Server.
End Server.

(** * A concrete engine and concrete parsers

    Instances of the two interfaces, on which the server can be run. *)

Module Sample.

(** Modelled from the spec: [SimulationRunner] ([SimulationRunner.hh] and
    [SimulationRunner.cc] are not among the sources).  Section 6 gives its
    interface: pause control, iteration and entity queries, removal
    requests, attached modules, the step period and the mark of a
    blocking-paused next step. *)
Record Runner := mkRunner {
  paused : bool;
  running : bool;
  iterations : N;
  entities : list (string * Entity);
  systems : list N;
  updatePeriod : duration;
  nextStepBlockingPaused : bool;
}.

Definition with_paused (b : bool) (r : Runner) : Runner :=
  mkRunner b (running r) (iterations r) (entities r) (systems r)
    (updatePeriod r) (nextStepBlockingPaused r).

Definition with_entities (es : list (string * Entity)) (r : Runner) : Runner :=
  mkRunner (paused r) (running r) (iterations r) es (systems r)
    (updatePeriod r) (nextStepBlockingPaused r).

Definition with_system (s : N) (r : Runner) : Runner :=
  mkRunner (paused r) (running r) (iterations r) (entities r) (systems r ++ [s])
    (updatePeriod r) (nextStepBlockingPaused r).

Definition with_updatePeriod (p : duration) (r : Runner) : Runner :=
  mkRunner (paused r) (running r) (iterations r) (entities r) (systems r)
    p (nextStepBlockingPaused r).

Definition with_nextStepBlockingPaused (b : bool) (r : Runner) : Runner :=
  mkRunner (paused r) (running r) (iterations r) (entities r) (systems r)
    (updatePeriod r) b.

(** The world is entity 1, its models follow. *)
Definition create (w : sdf.World) (c : ServerConfig.t) : Runner :=
  mkRunner false false 0
    ((sdf.world_name w, 1%N) ::
     imap (fun i m => (sdf.model_name m, N.of_nat (2 + i))) (sdf.models w))
    (match ServerConfig.UseLogRecord c with true => [0%N] | false => [] end)
    0%Z false.

(** A paused world does not advance; a blocking-paused step uses up its
    mark.  The iteration counter is a 64-bit unsigned integer. *)
Definition run (n : N) (r : Runner) : bool * Runner :=
  if paused r then (true, with_nextStepBlockingPaused false r)
  else
    (true,
     mkRunner (paused r) false ((iterations r + n) mod 2 ^ 64)%N (entities r)
       (systems r) (updatePeriod r) (nextStepBlockingPaused r)).

Definition stop (r : Runner) : Runner :=
  mkRunner (paused r) false (iterations r) (entities r) (systems r)
    (updatePeriod r) (nextStepBlockingPaused r).

Definition entityByName (name : string) (r : Runner) : option Entity :=
  match list_find (fun e => fst e = name) (entities r) with
  | Some (_, e) => Some (snd e)
  | None => None
  end.

Definition hasEntity (name : string) (r : Runner) : bool :=
  match list_find (fun e => fst e = name) (entities r) with
  | Some _ => true
  | None => false
  end.

Definition removeByName (name : string) (recursive : bool) (r : Runner)
    : bool * Runner :=
  if hasEntity name r
  then (true, with_entities (filter (fun e => fst e ≠ name) (entities r)) r)
  else (false, r).

Definition removeByEntity (e : Entity) (recursive : bool) (r : Runner)
    : bool * Runner :=
  match list_find (fun x => snd x = e) (entities r) with
  | Some _ => (true, with_entities (filter (fun x => snd x ≠ e) (entities r)) r)
  | None => (false, r)
  end.

Definition engine : SimulationRunner.Engine Runner :=
  {| SimulationRunner.Create := create;
     SimulationRunner.Run := run;
     SimulationRunner.Stop := stop;
     SimulationRunner.SetPaused := with_paused;
     SimulationRunner.Paused := paused;
     SimulationRunner.Running := running;
     SimulationRunner.IterationCount := iterations;
     SimulationRunner.EntityCount := fun r => N.of_nat (length (entities r));
     SimulationRunner.SystemCount := fun r => N.of_nat (length (systems r));
     SimulationRunner.HasEntity := hasEntity;
     SimulationRunner.EntityByName := entityByName;
     SimulationRunner.RequestRemoveEntity_name := removeByName;
     SimulationRunner.RequestRemoveEntity_entity := removeByEntity;
     SimulationRunner.AddSystem_plugin := with_system;
     SimulationRunner.AddSystem_shared := with_system;
     SimulationRunner.SetUpdatePeriod := with_updatePeriod;
     SimulationRunner.SetNextStepAsBlockingPaused := with_nextStepBlockingPaused |}.

(** ** Parsers *)

Definition default_world : sdf.World :=
  {| sdf.world_name := "default"; sdf.models := []; sdf.plugins := [] |}.

Definition box : sdf.Model := {| sdf.model_name := "box" |}.

Definition unreadable : sdf.Error :=
  {| sdf.code := 1; sdf.message := "Unable to read the document" |}.

Definition invalid_graph : sdf.Error :=
  {| sdf.code := 2; sdf.message := "Invalid frame graph" |}.

(** The default world text is a world named default without children;
    no other text is readable. *)
Definition loadSdfString (text : string) : sdf.Root * sdf.Errors :=
  if String.eqb text DefaultWorld
  then ({| sdf.worlds := [default_world]; sdf.model := None |}, [])
  else (sdf.empty, [unreadable]).

(** [box.sdf] holds a model outside any world, [shapes.sdf] a world with
    that model; no other file is readable. *)
Definition load (path : string) : sdf.Root * sdf.Errors :=
  if String.eqb path "box.sdf"
  then ({| sdf.worlds := []; sdf.model := Some box |}, [])
  else if String.eqb path "shapes.sdf"
  then ({| sdf.worlds := [{| sdf.world_name := "shapes"; sdf.models := [box];
                            sdf.plugins := [] |}];
           sdf.model := None |}, [])
  else (sdf.empty, [unreadable]).

(** A parser whose re-validation accepts every scene. *)
Definition parser : sdf.Parser :=
  {| sdf.LoadSdfString := loadSdfString;
     sdf.Load := load;
     sdf.UpdateGraphs := fun _ => [] |}.

(** A parser whose re-validation finds a fault in the frame graph of a
    world that holds a model. *)
Definition strict_parser : sdf.Parser :=
  {| sdf.LoadSdfString := loadSdfString;
     sdf.Load := load;
     sdf.UpdateGraphs := fun r =>
       if forallb (fun w => Server.is_empty (sdf.models w)) (sdf.worlds r)
       then [] else [invalid_graph] |}.

(** The files are found where they are named. *)
Definition resolve (file cache : string) : string :=
  if String.eqb file "box.sdf" then file
  else if String.eqb file "shapes.sdf" then file
  else EmptyString.

Definition file_config (file : string) : ServerConfig.t :=
  {| ServerConfig.Source := ServerConfig.kSdfFile;
     ServerConfig.SdfRoot := None;
     ServerConfig.SdfFile := file;
     ServerConfig.SdfString := EmptyString;
     ServerConfig.ResourceCache := EmptyString;
     ServerConfig.UseLogRecord := false;
     ServerConfig.UpdatePeriod := None |}.

(** A server with one world, as constructed without a source. *)
Definition server (sigInit : bool) : ServerPrivate Runner :=
  fst (@Server.Server_ctor Runner engine parser resolve sigInit ServerConfig.default).

(** A parser that reads no text at all, the default world included. *)
Definition worldless_parser : sdf.Parser :=
  {| sdf.LoadSdfString := fun _ => (sdf.empty, [unreadable]);
     sdf.Load := load;
     sdf.UpdateGraphs := fun _ => [] |}.

(** Every file is found where it is named. *)
Definition resolve_any (file cache : string) : string := file.

Definition string_config (text : string) : ServerConfig.t :=
  {| ServerConfig.Source := ServerConfig.kSdfString;
     ServerConfig.SdfRoot := None;
     ServerConfig.SdfFile := EmptyString;
     ServerConfig.SdfString := text;
     ServerConfig.ResourceCache := EmptyString;
     ServerConfig.UseLogRecord := false;
     ServerConfig.UpdatePeriod := None |}.

Definition root_config (root : sdf.Root) : ServerConfig.t :=
  {| ServerConfig.Source := ServerConfig.kSdfRoot;
     ServerConfig.SdfRoot := Some root;
     ServerConfig.SdfFile := EmptyString;
     ServerConfig.SdfString := EmptyString;
     ServerConfig.ResourceCache := EmptyString;
     ServerConfig.UseLogRecord := false;
     ServerConfig.UpdatePeriod := None |}.

(** A scene of two worlds. *)
Definition two_worlds : sdf.Root :=
  {| sdf.worlds :=
       [{| sdf.world_name := "shapes"; sdf.models := [box]; sdf.plugins := [] |};
        default_world];
     sdf.model := None |}.

(** The server of the scene of two worlds. *)
Definition two_world_server : ServerPrivate Runner :=
  fst (@Server.Server_ctor Runner engine parser resolve true
         (root_config two_worlds)).

(** That server after a non-blocking [Run] of five iterations, when the
    thread has marked it running. *)
Definition running_server : ServerPrivate Runner :=
  @Server.steps Runner engine
    [Server.ev_Run false 5 false; Server.ev_thread_start] (server true).

End Sample.

(** * Properties of the server *)

Module ServerProps.
Import Server.

Section Generic.

Context {R : Type} `{!SimulationRunner.Engine R}.

Implicit Types (d : ServerPrivate R) (worldIndex : nat).

(** ** The world index guard *)

Lemma runner_at_out_of_range d worldIndex :
  length (simRunners d) <= worldIndex -> runner_at worldIndex d = None.
Proof. intros Hge. unfold runner_at. by apply lookup_ge_None_2. Qed.

Lemma runner_at_in_range d worldIndex :
  worldIndex < length (simRunners d) -> is_Some (runner_at worldIndex d).
Proof. intros Hlt. unfold runner_at. by apply lookup_lt_is_Some_2. Qed.

(** C1, as amended: for a world index at or beyond the number of worlds,
    the queries whose return type is [std::optional] ([Running], [Paused],
    [IterationCount], [EntityCount], [SystemCount], [EntityByName]) return
    [std::nullopt]; [HasEntity], both [RequestRemoveEntity] and [SetPaused]
    return a plain [false]; [SetUpdatePeriod] returns nothing.  None of them
    changes the server. *)
Theorem out_of_range_results d worldIndex :
  length (simRunners d) <= worldIndex ->
  Running_world worldIndex d = None
  /\ Paused worldIndex d = None
  /\ IterationCount worldIndex d = None
  /\ EntityCount worldIndex d = None
  /\ SystemCount worldIndex d = None
  /\ (forall name, EntityByName name worldIndex d = None)
  /\ (forall name, HasEntity name worldIndex d = false)
  /\ (forall name recursive,
        RequestRemoveEntity_name name recursive worldIndex d = (false, d))
  /\ (forall entity recursive,
        RequestRemoveEntity_entity entity recursive worldIndex d = (false, d))
  /\ (forall paused, SetPaused paused worldIndex d = (false, d))
  /\ (forall updatePeriod, SetUpdatePeriod updatePeriod worldIndex d = (tt, d)).
Proof.
  intros Hge. pose proof (runner_at_out_of_range d worldIndex Hge) as Hnone.
  unfold Running_world, Paused, IterationCount, EntityCount, SystemCount,
    EntityByName, HasEntity, RequestRemoveEntity_name,
    RequestRemoveEntity_entity, SetPaused, SetUpdatePeriod.
  rewrite Hnone. repeat split.
Qed.

(** C10: for an out-of-range world index [SetUpdatePeriod] is a silent
    no-op: its only result is the unit of a [void] method, the server is
    unchanged, and so is the update period of every world runner. *)
Theorem SetUpdatePeriod_out_of_range d updatePeriod worldIndex :
  length (simRunners d) <= worldIndex ->
  SetUpdatePeriod updatePeriod worldIndex d = (tt, d)
  /\ simRunners (snd (SetUpdatePeriod updatePeriod worldIndex d)) = simRunners d.
Proof.
  intros Hge. unfold SetUpdatePeriod.
  rewrite (runner_at_out_of_range _ _ Hge). done.
Qed.

(** ** [Run] and its preconditions *)

(** C2, as amended: when the signal handlers were not created, [Run]
    returns [false] and leaves the running flag, the thread handle, the
    number of threads and the number of world runners as they were; the
    world runners themselves have all received [SetPaused(paused)], since
    that loop comes before the precondition checks. *)
Theorem Run_without_signal_handler d blocking iterations paused :
  sigHandlerInitialized d = false ->
  Run blocking iterations paused d
    = (returns false, for_each_runner (SimulationRunner.SetPaused paused) d)
  /\ running (snd (Run blocking iterations paused d)) = running d
  /\ runThread (snd (Run blocking iterations paused d)) = runThread d
  /\ threadsCreated (snd (Run blocking iterations paused d)) = threadsCreated d
  /\ simRunners (snd (Run blocking iterations paused d))
     = SimulationRunner.SetPaused paused <$> simRunners d.
Proof.
  intros Hsig. unfold Run. cbn. rewrite Hsig. cbn. done.
Qed.

(** C8: [RunOnce(paused)] is, for either value of the flag, the blocking
    [Run] of one iteration with the same flag, preceded when the flag is
    set by marking the next step of every world runner as blocking-paused;
    its result is the result of that [Run]. *)
Theorem RunOnce_refines_spec paused d :
  RunOnce paused d = RunOnce_spec paused d.
Proof. by destruct paused. Qed.

(** ** [AddSystem] *)

(** C6: while the server is running, [AddSystem] (either overload) returns
    [false] inside the optional, which is neither [std::nullopt] nor a
    failure of another kind, and changes nothing; after [Stop] the same
    call with a valid world index is accepted: it returns [true] and the
    runner of that world, as [Stop] left it, has received the system. *)
Theorem AddSystem_rejected_while_running d worldIndex plugin system :
  running d = true ->
  AddSystem_plugin plugin worldIndex d = (Some false, d)
  /\ AddSystem_shared system worldIndex d = (Some false, d)
  /\ (worldIndex < length (simRunners d) ->
      exists r,
        runner_at worldIndex d = Some r
        /\ AddSystem_plugin plugin worldIndex (snd (Stop d))
           = (Some true,
              update_runner worldIndex
                (SimulationRunner.AddSystem_plugin plugin (SimulationRunner.Stop r))
                (snd (Stop d)))
        /\ runner_at worldIndex (snd (AddSystem_plugin plugin worldIndex (snd (Stop d))))
           = Some (SimulationRunner.AddSystem_plugin plugin (SimulationRunner.Stop r))
        /\ AddSystem_shared system worldIndex (snd (Stop d))
           = (Some true,
              update_runner worldIndex
                (SimulationRunner.AddSystem_shared system (SimulationRunner.Stop r))
                (snd (Stop d)))
        /\ runner_at worldIndex (snd (AddSystem_shared system worldIndex (snd (Stop d))))
           = Some (SimulationRunner.AddSystem_shared system (SimulationRunner.Stop r))).
Proof.
  intros Hrun. unfold AddSystem_plugin at 1, AddSystem_shared at 1.
  rewrite Hrun. split; [done|]. split; [done|].
  intros Hlt.
  destruct (runner_at_in_range d worldIndex Hlt) as [r Hr]. exists r.
  split; [done|].
  assert (runner_at worldIndex (snd (Stop d)) = Some (SimulationRunner.Stop r))
    as Hstopped.
  { unfold runner_at in *. cbn. by rewrite list_lookup_fmap, Hr. }
  assert (worldIndex < length (simRunners (snd (Stop d)))) as Hlt'
    by (cbn; by rewrite length_fmap).
  unfold AddSystem_plugin, AddSystem_shared. rewrite Hstopped.
  cbn [running snd Stop ServerPrivate_Stop for_each_runner set_simRunners
       set_running fst].
  repeat split; unfold runner_at, update_runner; cbn [simRunners set_simRunners];
    by rewrite list_lookup_insert_eq.
Qed.

(** C9: in both overloads of [AddSystem] the check of the running flag
    comes before the check of the world index: while the server is running
    the call returns [false] also for a world index that is out of range;
    the absent marker for that index is only returned once the server no
    longer runs. *)
Theorem AddSystem_running_check_first d worldIndex plugin system :
  running d = true ->
  length (simRunners d) <= worldIndex ->
  fst (AddSystem_plugin plugin worldIndex d) = Some false
  /\ fst (AddSystem_shared system worldIndex d) = Some false
  /\ fst (AddSystem_plugin plugin worldIndex (set_running false d)) = None
  /\ fst (AddSystem_shared system worldIndex (set_running false d)) = None.
Proof.
  intros Hrun Hge. unfold AddSystem_plugin, AddSystem_shared.
  rewrite Hrun. cbn.
  pose proof (runner_at_out_of_range (set_running false d) worldIndex Hge) as Hnone.
  unfold runner_at in *. cbn in *. rewrite Hnone. done.
Qed.

(** ** What the events leave untouched *)

Lemma run_all_length iterations (rs : list R) :
  length (snd (run_all iterations rs)) = length rs.
Proof.
  induction rs as [|r rs IH]; [done|]. cbn.
  destruct (SimulationRunner.Run iterations r) as [ok r'].
  destruct (run_all iterations rs) as [oks rs']. cbn in *. by rewrite IH.
Qed.

Lemma frame_update_runner worldIndex r d :
  frame (update_runner worldIndex r d) = frame d.
Proof. unfold frame. cbn. by rewrite length_insert. Qed.

Lemma frame_for_each_runner f d : frame (for_each_runner f d) = frame d.
Proof. unfold frame. cbn. by rewrite length_fmap. Qed.

Lemma frame_set_running b d : frame (set_running b d) = frame d.
Proof. done. Qed.

Lemma frame_ServerPrivate_Run iterations d :
  frame (snd (ServerPrivate_Run iterations d)) = frame d.
Proof.
  unfold ServerPrivate_Run. cbn.
  pose proof (run_all_length iterations (simRunners d)) as Hlen.
  destruct (run_all iterations (simRunners d)) as [result rs].
  unfold frame. cbn in *. by rewrite Hlen.
Qed.

Lemma frame_invoke c worldIndex d :
  frame (snd (invoke c worldIndex d)) = frame d.
Proof.
  destruct c; cbn; try done;
    unfold RequestRemoveEntity_name, RequestRemoveEntity_entity, SetPaused,
      SetUpdatePeriod;
    destruct (runner_at worldIndex d) as [r|]; cbn; try done.
  - destruct (SimulationRunner.RequestRemoveEntity_name name recursive r).
    apply frame_update_runner.
  - destruct (SimulationRunner.RequestRemoveEntity_entity entity recursive r).
    apply frame_update_runner.
  - apply frame_update_runner.
  - apply frame_update_runner.
Qed.

Lemma frame_AddSystem_plugin system worldIndex d :
  frame (snd (AddSystem_plugin system worldIndex d)) = frame d.
Proof.
  unfold AddSystem_plugin. destruct (running d); [done|].
  destruct (runner_at worldIndex d); [apply frame_update_runner|done].
Qed.

Lemma frame_AddSystem_shared system worldIndex d :
  frame (snd (AddSystem_shared system worldIndex d)) = frame d.
Proof.
  unfold AddSystem_shared. destruct (running d); [done|].
  destruct (runner_at worldIndex d); [apply frame_update_runner|done].
Qed.

Lemma frame_accounted d d' :
  frame d' = frame d ->
  thread_accounted d ->
  length (simRunners d') = length (simRunners d) /\ thread_accounted d'.
Proof.
  unfold frame, thread_accounted. intros [= Hlen Hthread Hcount] Hacc.
  by rewrite Hlen, Hthread, Hcount.
Qed.

Lemma Run_frame blocking iterations paused d :
  thread_accounted d ->
  length (simRunners (snd (Run blocking iterations paused d)))
    = length (simRunners d)
  /\ thread_accounted (snd (Run blocking iterations paused d)).
Proof.
  intros Hacc. unfold Run.
  set (d1 := for_each_runner (SimulationRunner.SetPaused paused) d).
  destruct (frame_accounted d d1) as [Hlen Hacc1];
    [apply frame_for_each_runner|done|].
  clearbody d1. rewrite <- Hlen.
  destruct (sigHandlerInitialized d1); cbn [negb]; [|done].
  destruct (running d1); [done|].
  destruct blocking.
  - pose proof (frame_ServerPrivate_Run iterations d1) as Hframe.
    destruct (ServerPrivate_Run iterations d1) as [result d2].
    by apply frame_accounted.
  - unfold thread_accounted in *.
    destruct (runThread d1) eqn:Hthread; cbn; [by rewrite Hthread|].
    split; [done|]. by rewrite Hacc1.
Qed.

Lemma thread_start_frame d :
  thread_accounted d ->
  length (simRunners (thread_start d)) = length (simRunners d)
  /\ thread_accounted (thread_start d).
Proof.
  intros Hacc. unfold thread_start.
  destruct (runThread d) as [[iterations|iterations| |]|] eqn:Hthread;
    try done.
  unfold thread_accounted in *. cbn in *. by rewrite Hthread in Hacc.
Qed.

Lemma thread_loop_frame d :
  thread_accounted d ->
  length (simRunners (thread_loop d)) = length (simRunners d)
  /\ thread_accounted (thread_loop d).
Proof.
  intros Hacc. unfold thread_loop.
  destruct (runThread d) as [[iterations|iterations| |]|] eqn:Hthread;
    try done.
  pose proof (run_all_length iterations (simRunners d)) as Hlen.
  destruct (run_all iterations (simRunners d)) as [result rs].
  unfold thread_accounted in *. cbn in *. by rewrite Hthread in Hacc.
Qed.

Lemma thread_exit_frame d :
  thread_accounted d ->
  length (simRunners (thread_exit d)) = length (simRunners d)
  /\ thread_accounted (thread_exit d).
Proof.
  intros Hacc. unfold thread_exit.
  destruct (runThread d) as [[iterations|iterations| |]|] eqn:Hthread;
    try done.
  unfold thread_accounted in *. cbn in *. by rewrite Hthread in Hacc.
Qed.

Lemma step_frame e d :
  thread_accounted d ->
  length (simRunners (step e d)) = length (simRunners d)
  /\ thread_accounted (step e d).
Proof.
  intros Hacc. destruct e; cbn [step].
  - apply frame_accounted; [apply frame_invoke|done].
  - apply frame_accounted; [apply frame_AddSystem_plugin|done].
  - apply frame_accounted; [apply frame_AddSystem_shared|done].
  - by apply Run_frame.
  - unfold RunOnce.
    set (d1 := if paused then _ else d).
    destruct (frame_accounted d d1) as [Hlen Hacc1]; [|done|].
    { subst d1. destruct paused; [apply frame_for_each_runner|done]. }
    rewrite <- Hlen. by apply Run_frame.
  - apply frame_accounted; [|done]. cbn.
    unfold ServerPrivate_Stop. by rewrite frame_for_each_runner.
  - by apply thread_start_frame.
  - by apply thread_loop_frame.
  - by apply thread_exit_frame.
Qed.

Lemma steps_frame es d :
  thread_accounted d ->
  length (simRunners (steps es d)) = length (simRunners d)
  /\ thread_accounted (steps es d).
Proof.
  revert d. induction es as [|e es IH]; intros d Hacc; [done|].
  change (steps (e :: es) d) with (steps es (step e d)).
  destruct (step_frame e d Hacc) as [Hlen Hacc'].
  destruct (IH _ Hacc') as [Hlen' Hacc'']. split; [by rewrite Hlen', Hlen|done].
Qed.

(** ** The running flag and the thread *)








(** Without a world at the index, a call refuses and changes nothing. *)
Lemma invoke_out_of_range c worldIndex d :
  length (simRunners d) <= worldIndex ->
  is_refusal (fst (invoke c worldIndex d)) = true
  /\ snd (invoke c worldIndex d) = d.
Proof.
  intros Hge. pose proof (runner_at_out_of_range d worldIndex Hge) as Hnone.
  destruct c; cbn;
    unfold Running_world, Paused, IterationCount, EntityCount, SystemCount,
      EntityByName, HasEntity, RequestRemoveEntity_name,
      RequestRemoveEntity_entity, SetPaused, SetUpdatePeriod;
    rewrite Hnone; done.
Qed.

Lemma AddSystem_out_of_range worldIndex d plugin system :
  length (simRunners d) <= worldIndex ->
  is_refusal (ret_optional_bool (fst (AddSystem_plugin plugin worldIndex d))) = true
  /\ snd (AddSystem_plugin plugin worldIndex d) = d
  /\ is_refusal (ret_optional_bool (fst (AddSystem_shared system worldIndex d))) = true
  /\ snd (AddSystem_shared system worldIndex d) = d.
Proof.
  intros Hge. pose proof (runner_at_out_of_range d worldIndex Hge) as Hnone.
  unfold AddSystem_plugin, AddSystem_shared. rewrite Hnone.
  by destruct (running d).
Qed.

End Generic.

(** ** Construction *)

Section Construction.

Context {R : Type} `{!SimulationRunner.Engine R} `{!sdf.Parser}.
Variable resolveSdfWorldFile : string -> string -> string.

Implicit Types (d : ServerPrivate R) (c : ServerConfig.t).

Abbreviation Server_ctor := (Server.Server_ctor (R:=R) resolveSdfWorldFile).

Lemma string_empty_spec (s : string) :
  string_empty s = true <-> s = EmptyString.
Proof. by destruct s. Qed.

Lemma is_empty_spec {A} (l : list A) : is_empty l = true <-> l = [].
Proof. by destruct l. Qed.

(** Reading the source changes the scene root only. *)
Lemma load_source_keeps c d :
  let d' := exit_state (load_source resolveSdfWorldFile c d) in
  simRunners d' = simRunners d /\ running d' = running d
  /\ runThread d' = runThread d /\ threadsCreated d' = threadsCreated d
  /\ sigHandlerInitialized d' = sigHandlerInitialized d.
Proof.
  unfold load_source. repeat case_match; done.
Qed.

Lemma Server_ctor_fresh sigInit c :
  let d := fst (Server_ctor sigInit c) in
  running d = false /\ runThread d = None /\ threadsCreated d = 0
  /\ sigHandlerInitialized d = sigInit.
Proof.
  unfold Server.Server_ctor.
  pose proof (load_source_keeps c (set_config c (new_ServerPrivate sigInit)))
    as (_ & Hrun & Hthread & Hcount & Hsig).
  destruct (load_source _ _ _) as [d out|d errors out]; cbn in *; [done|].
  destruct (negb (is_empty errors)); cbn; [done|].
  unfold SetUpdatePeriod, runner_at.
  repeat case_match; done.
Qed.

Lemma Server_ctor_accounted sigInit c :
  thread_accounted (fst (Server_ctor sigInit c)).
Proof.
  pose proof (Server_ctor_fresh sigInit c) as (_ & Hthread & Hcount & _).
  unfold thread_accounted. cbn in *. by rewrite Hthread, Hcount.
Qed.

(** C3: over the whole life of a server, whatever is called on it after
    its construction, at most one thread is ever started; and a [Run] that
    finds the running flag set, be it set by a blocking run loop or by the
    thread of a non-blocking one, returns [false], starts no thread and
    leaves the thread handle alone. *)
Theorem single_background_thread :
  (forall sigInit c es,
     threadsCreated (steps es (fst (Server_ctor sigInit c))) <= 1)
  /\ (forall d blocking iterations paused,
        running d = true ->
        fst (Run blocking iterations paused d) = returns false
        /\ threadsCreated (snd (Run blocking iterations paused d))
            = threadsCreated d
        /\ runThread (snd (Run blocking iterations paused d)) = runThread d).
Proof.
  split.
  - intros sigInit c es.
    destruct (steps_frame es (fst (Server_ctor sigInit c))) as [_ Hacc];
      [apply Server_ctor_accounted|].
    unfold thread_accounted in Hacc. rewrite Hacc. case_match; lia.
  - intros d blocking iterations paused Hrun. unfold Run. cbn.
    rewrite Hrun. by destruct (sigHandlerInitialized d).
Qed.

(** C7, as amended: when the world file of a file-path configuration
    cannot be found, the constructor stops there: it reports that the world
    was not found, consults no parser and creates no world runner, and the
    server is not running.  The server stays without world runners whatever
    is called on it later, so that every call that takes a world index
    answers with the absent marker or with [false] and changes nothing. *)
Theorem world_file_not_found sigInit c :
  ServerConfig.Source c = ServerConfig.kSdfFile ->
  resolveSdfWorldFile (ServerConfig.SdfFile c) (ServerConfig.ResourceCache c)
    = EmptyString ->
  Server_ctor sigInit c
    = (set_config c (new_ServerPrivate sigInit),
       [gzerr ("Failed to find world [" +:+ ServerConfig.SdfFile c +:+ "]" +:+ nl)])
  /\ Running (fst (Server_ctor sigInit c)) = false
  /\ forall es worldIndex,
       let d := steps es (fst (Server_ctor sigInit c)) in
       simRunners d = []
       /\ (forall call,
             is_refusal (fst (invoke call worldIndex d)) = true
             /\ snd (invoke call worldIndex d) = d)
       /\ (forall plugin,
             is_refusal (ret_optional_bool
                           (fst (AddSystem_plugin plugin worldIndex d))) = true
             /\ snd (AddSystem_plugin plugin worldIndex d) = d)
       /\ (forall system,
             is_refusal (ret_optional_bool
                           (fst (AddSystem_shared system worldIndex d))) = true
             /\ snd (AddSystem_shared system worldIndex d) = d).
Proof.
  intros Hsource Hresolve.
  assert (Server_ctor sigInit c
          = (set_config c (new_ServerPrivate sigInit),
             [gzerr ("Failed to find world [" +:+ ServerConfig.SdfFile c
                     +:+ "]" +:+ nl)])) as Hctor.
  { unfold Server.Server_ctor, load_source. by rewrite Hsource, Hresolve. }
  split; [done|]. rewrite Hctor. split; [done|].
  intros es worldIndex d.
  assert (simRunners d = []) as Hempty.
  { destruct (steps_frame es (set_config c (new_ServerPrivate (R:=R) sigInit)))
      as [Hlen _]; [done|].
    apply nil_length_inv. subst d. cbn [fst]. by rewrite Hlen. }
  assert (length (simRunners d) <= worldIndex) as Hge
    by (rewrite Hempty; cbn; lia).
  split; [done|]. split; [|split].
  - intros call. by apply invoke_out_of_range.
  - intros plugin.
    destruct (AddSystem_out_of_range worldIndex d plugin 0%N Hge)
      as (? & ? & _); done.
  - intros system.
    destruct (AddSystem_out_of_range worldIndex d 0%N system Hge)
      as (_ & _ & ? & ?); done.
Qed.

(** C5, as amended: when the file of a file-path configuration is found
    and parses without errors to a model outside any world, the constructor
    loads the default world, adds the model to it and re-validates the
    composed scene.  When the re-validation reports no error, the server
    has exactly one world, at world index 0, whose only model is the model
    of the file, and its one world runner is the one created for that
    world.  When the re-validation reports errors, the constructor lists
    them and returns with the composed scene and no world runner. *)
Theorem bare_model_file_in_default_world
    sigInit c fileRoot m defaultRoot defaultWorld :
  let filePath :=
    resolveSdfWorldFile (ServerConfig.SdfFile c) (ServerConfig.ResourceCache c) in
  ServerConfig.Source c = ServerConfig.kSdfFile ->
  filePath <> EmptyString ->
  sdf.Load filePath = (fileRoot, []) ->
  sdf.model fileRoot = Some m ->
  sdf.LoadSdfString DefaultWorld = (defaultRoot, []) ->
  sdf.worlds defaultRoot = [defaultWorld] ->
  sdf.models defaultWorld = [] ->
  let composed := add_model_to_world 0 m defaultWorld defaultRoot in
  let d := fst (Server_ctor sigInit c) in
  let out := snd (Server_ctor sigInit c) in
  (sdf.UpdateGraphs composed = [] ->
     exists world,
       sdf.worlds composed
         = [{| sdf.world_name := sdf.world_name defaultWorld;
               sdf.models := [m];
               sdf.plugins := sdf.plugins defaultWorld |}]
       /\ sdf.worlds (sdfRoot d) = [world]
       /\ sdf.world_name world = sdf.world_name defaultWorld
       /\ sdf.models world = [m]
       /\ simRunners d
          = [match ServerConfig.UpdatePeriod c with
             | Some p =>
                 SimulationRunner.SetUpdatePeriod p
                   (SimulationRunner.Create world c)
             | None => SimulationRunner.Create world c
             end]
       /\ length (simRunners d) = 1
       /\ is_Some (runner_at 0 d)
       /\ runner_at 1 d = None
       /\ existsb is_error_entry out = false)
  /\ (sdf.UpdateGraphs composed <> [] ->
      sdfRoot d = composed
      /\ simRunners d = []
      /\ runner_at 0 d = None
      /\ out = gzmsg ("Loading SDF world file[" +:+ filePath +:+ "]." +:+ nl)
               :: (gzerr_sdf <$> sdf.UpdateGraphs composed)).
Proof.
  intros filePath Hsource Hfound Hload Hmodel Hdefault Hworlds Hmodels
    composed d out.
  subst d out. unfold Server.Server_ctor, load_source.
  rewrite Hsource. fold filePath.
  destruct (string_empty filePath) eqn:Hempty;
    [by apply string_empty_spec in Hempty|].
  assert (sdf.WorldByIndex 0 defaultRoot = Some defaultWorld) as Hworld
    by (unfold sdf.WorldByIndex; by rewrite Hworlds).
  rewrite Hload. cbn [is_empty]. rewrite Hmodel, Hdefault, Hworld.
  cbn [is_empty]. fold composed.
  assert (sdf.worlds composed
          = [{| sdf.world_name := sdf.world_name defaultWorld;
                sdf.models := [m];
                sdf.plugins := sdf.plugins defaultWorld |}]) as Hcomposed.
  { subst composed.
    unfold add_model_to_world, sdf.AddModel, sdf.ModelNameExists.
    by rewrite Hworlds, Hmodels. }
  clearbody composed. destruct composed as [composedWorlds composedModel].
  cbn in Hcomposed. subst composedWorlds.
  split.
  - intros Hvalid. rewrite Hvalid. cbn [is_empty negb fst snd].
    unfold SetUpdatePeriod, runner_at, update_runner,
      ServerPrivate_CreateEntities, ServerPrivate_AddRecordPlugin.
    destruct (ServerConfig.UseLogRecord c), (ServerConfig.UpdatePeriod c);
      cbn; eexists; repeat split; eauto.
  - intros Hinvalid.
    destruct (sdf.UpdateGraphs _) as [|e errors]; [done|].
    cbn. unfold runner_at. done.
Qed.

End Construction.
End ServerProps.

(** * The properties on the sample engine *)

Module Examples.
Import Server ServerProps.

#[local] Existing Instance Sample.engine.
#[local] Existing Instance Sample.parser.

Abbreviation server := Sample.server.
Abbreviation running_server := Sample.running_server.

(** C1 fails as stated: [HasEntity] with a world index beyond the only
    world returns the same plain [false] as for a name that world 0 does
    not hold, not the absent marker. *)
Lemma HasEntity_out_of_range_is_plain_false :
  length (simRunners (server true)) <= 1
  /\ invoke (call_HasEntity "box") 1 (server true)
     = (ret_bool false, server true)
  /\ invoke (call_HasEntity "box") 0 (server true)
     = (ret_bool false, server true)
  /\ is_nullopt (fst (invoke (call_HasEntity "box") 1 (server true))) = false.
Proof. vm_compute. repeat split. lia. Qed.

Lemma out_of_range_results_witness :
  length (simRunners (server true)) <= 1
  /\ Paused 1 (server true) = None
  /\ HasEntity "default" 1 (server true) = false.
Proof.
  assert (length (simRunners (server true)) <= 1) as Hge by (vm_compute; lia).
  split; [exact Hge|].
  destruct (out_of_range_results (server true) 1 Hge)
    as (_ & Hpaused & _ & _ & _ & _ & Hhas & _).
  split; [exact Hpaused | exact (Hhas "default")].
Defined.

Lemma SetUpdatePeriod_out_of_range_witness :
  length (simRunners (server true)) <= 7
  /\ SetUpdatePeriod 1000000%Z 7 (server true) = (tt, server true).
Proof.
  assert (length (simRunners (server true)) <= 7) as Hge by (vm_compute; lia).
  split; [exact Hge|].
  exact (proj1 (SetUpdatePeriod_out_of_range (server true) 1000000%Z 7 Hge)).
Defined.

(** C2 fails as stated: without signal handlers [Run(true, 1, true)]
    returns [false], yet the world that was not paused before the call is
    paused after it. *)
Lemma Run_without_signal_handler_sets_paused :
  sigHandlerInitialized (server false) = false
  /\ Paused 0 (server false) = Some false
  /\ fst (Run true 1 true (server false)) = returns false
  /\ Paused 0 (snd (Run true 1 true (server false))) = Some true
  /\ snd (Run true 1 true (server false)) <> server false.
Proof. vm_compute. repeat split. discriminate. Qed.

Lemma Run_without_signal_handler_witness :
  sigHandlerInitialized (server false) = false
  /\ fst (Run true 1 true (server false)) = returns false
  /\ running (snd (Run true 1 true (server false))) = false.
Proof.
  assert (sigHandlerInitialized (server false) = false) as Hsig by reflexivity.
  split; [exact Hsig|].
  destruct (Run_without_signal_handler (server false) true 1 true Hsig)
    as (Hrun & Hrunning & _).
  split; [by rewrite Hrun | exact Hrunning].
Defined.

Lemma single_background_thread_witness :
  running running_server = true
  /\ fst (Run false 3 false running_server) = returns false
  /\ threadsCreated (snd (Run false 3 false running_server)) = 1
  /\ threadsCreated
       (steps [ev_Run false 5 false; ev_thread_start; ev_Run false 3 false;
               ev_thread_loop; ev_thread_exit; ev_Run false 2 true; ev_Stop;
               ev_Run false 1 false]
          (fst (Server_ctor Sample.resolve true ServerConfig.default))) <= 1.
Proof.
  assert (running running_server = true) as Hrun by reflexivity.
  split; [exact Hrun|].
  destruct (single_background_thread (R:=Sample.Runner) Sample.resolve)
    as [Hlife Hcall].
  destruct (Hcall running_server false 3%N false Hrun) as (Hret & Hcount & _).
  split; [exact Hret|]. split; [exact Hcount|]. apply Hlife.
Defined.

Lemma AddSystem_rejected_while_running_witness :
  running running_server = true
  /\ 0 < length (simRunners running_server)
  /\ fst (AddSystem_plugin 4%N 0 running_server) = Some false
  /\ SystemCount 0 running_server = Some 0%N
  /\ fst (AddSystem_plugin 4%N 0 (snd (Stop running_server))) = Some true
  /\ SystemCount 0 (snd (AddSystem_plugin 4%N 0 (snd (Stop running_server))))
     = Some 1%N.
Proof.
  assert (running running_server = true) as Hrun by reflexivity.
  assert (0 < length (simRunners running_server)) as Hlt by (vm_compute; lia).
  split; [exact Hrun|]. split; [exact Hlt|].
  destruct (AddSystem_rejected_while_running running_server 0 4%N 4%N Hrun)
    as (Hrejected & _ & Hafter).
  destruct (Hafter Hlt) as (r & _ & Haccepted & _).
  split; [by rewrite Hrejected|]. split; [reflexivity|].
  split; [by rewrite Haccepted | reflexivity].
Defined.

Lemma AddSystem_running_check_first_witness :
  running running_server = true
  /\ length (simRunners running_server) <= 3
  /\ fst (AddSystem_shared 4%N 3 running_server) = Some false.
Proof.
  assert (running running_server = true) as Hrun by reflexivity.
  assert (length (simRunners running_server) <= 3) as Hge by (vm_compute; lia).
  split; [exact Hrun|]. split; [exact Hge|].
  destruct (AddSystem_running_check_first running_server 3 4%N 4%N Hrun Hge)
    as (_ & Hshared & _).
  exact Hshared.
Defined.



(** C7 fails as stated: the server whose world file was not found is not
    barred from running.  [Run] and [RunOnce] look at the signal handlers
    and at the running flag, not at the number of world runners: the
    blocking calls return [true], and a non-blocking [Run] starts the
    thread, which sets the running flag. *)
Lemma server_without_worlds_still_runs :
  let d := fst (Server_ctor Sample.resolve true
                  (Sample.file_config "nowhere.sdf")) in
  simRunners d = []
  /\ fst (Run true 2 false d) = returns true
  /\ fst (RunOnce false d) = returns true
  /\ fst (Run false 2 false d) = waits
  /\ threadsCreated (snd (Run false 2 false d)) = 1
  /\ Running (steps [ev_Run false 2 false; ev_thread_start] d) = true.
Proof. vm_compute. repeat split. Qed.

Lemma world_file_not_found_witness :
  ServerConfig.Source (Sample.file_config "nowhere.sdf") = ServerConfig.kSdfFile
  /\ Sample.resolve "nowhere.sdf" EmptyString = EmptyString
  /\ snd (Server_ctor Sample.resolve true (Sample.file_config "nowhere.sdf"))
     = [gzerr ("Failed to find world [nowhere.sdf]" +:+ nl)]
  /\ simRunners
       (steps [ev_Run false 2 false; ev_indexed (call_SetPaused true) 0]
          (fst (Server_ctor Sample.resolve true
                  (Sample.file_config "nowhere.sdf")))) = [].
Proof.
  assert (ServerConfig.Source (Sample.file_config "nowhere.sdf")
          = ServerConfig.kSdfFile) as Hsource by reflexivity.
  assert (Sample.resolve
            (ServerConfig.SdfFile (Sample.file_config "nowhere.sdf"))
            (ServerConfig.ResourceCache (Sample.file_config "nowhere.sdf"))
          = EmptyString) as Hresolve by reflexivity.
  split; [exact Hsource|]. split; [exact Hresolve|].
  destruct (world_file_not_found Sample.resolve true
              (Sample.file_config "nowhere.sdf") Hsource Hresolve)
    as (Hctor & _ & Hlater).
  split; [by rewrite Hctor|].
  exact (proj1 (Hlater [ev_Run false 2 false; ev_indexed (call_SetPaused true) 0] 0)).
Defined.

(** C5 fails as stated: [box.sdf] is found and parses without errors to
    a model outside any world, and the default world text parses to one
    empty world; with a parser whose re-validation reports an error for
    the composed scene, the constructor returns before any world runner
    is created, and world index 0 is not valid. *)
Lemma bare_model_file_rejected_by_validation :
  let c := Sample.file_config "box.sdf" in
  let d := fst (Server_ctor (H0:=Sample.strict_parser) Sample.resolve true c) in
  ServerConfig.Source c = ServerConfig.kSdfFile
  /\ Sample.resolve (ServerConfig.SdfFile c) (ServerConfig.ResourceCache c)
     = "box.sdf"
  /\ sdf.Load (Parser:=Sample.strict_parser) "box.sdf"
     = ({| sdf.worlds := []; sdf.model := Some Sample.box |}, [])
  /\ sdf.LoadSdfString (Parser:=Sample.strict_parser) DefaultWorld
     = ({| sdf.worlds := [Sample.default_world]; sdf.model := None |}, [])
  /\ sdf.UpdateGraphs (Parser:=Sample.strict_parser)
       (add_model_to_world 0 Sample.box Sample.default_world
          {| sdf.worlds := [Sample.default_world]; sdf.model := None |})
     = [Sample.invalid_graph]
  /\ simRunners d = []
  /\ runner_at 0 d = None
  /\ Running_world 0 d = None.
Proof. vm_compute. repeat split. Qed.

Lemma bare_model_file_in_default_world_witness :
  let c := Sample.file_config "box.sdf" in
  let d := fst (Server_ctor Sample.resolve true c) in
  let composed :=
    add_model_to_world 0 Sample.box Sample.default_world
      {| sdf.worlds := [Sample.default_world]; sdf.model := None |} in
  ServerConfig.Source c = ServerConfig.kSdfFile
  /\ Sample.resolve (ServerConfig.SdfFile c) (ServerConfig.ResourceCache c)
     <> EmptyString
  /\ sdf.Load "box.sdf" = ({| sdf.worlds := []; sdf.model := Some Sample.box |}, [])
  /\ sdf.LoadSdfString DefaultWorld
     = ({| sdf.worlds := [Sample.default_world]; sdf.model := None |}, [])
  /\ sdf.UpdateGraphs composed = []
  /\ (exists world,
        sdf.worlds (sdfRoot d) = [world]
        /\ sdf.models world = [Sample.box]
        /\ simRunners d = [SimulationRunner.Create world c])
  /\ sdf.UpdateGraphs (Parser:=Sample.strict_parser) composed <> []
  /\ simRunners (fst (Server_ctor (H0:=Sample.strict_parser) Sample.resolve true c))
     = [].
Proof.
  intros c d composed.
  assert (ServerConfig.Source c = ServerConfig.kSdfFile) as Hsource
    by reflexivity.
  assert (Sample.resolve (ServerConfig.SdfFile c) (ServerConfig.ResourceCache c)
          <> EmptyString) as Hfound by (vm_compute; discriminate).
  assert (sdf.Load (Sample.resolve (ServerConfig.SdfFile c)
                      (ServerConfig.ResourceCache c))
          = ({| sdf.worlds := []; sdf.model := Some Sample.box |}, []))
    as Hload by reflexivity.
  assert (sdf.LoadSdfString DefaultWorld
          = ({| sdf.worlds := [Sample.default_world]; sdf.model := None |}, []))
    as Hdefault by reflexivity.
  assert (sdf.UpdateGraphs composed = []) as Hvalid by reflexivity.
  assert (sdf.UpdateGraphs (Parser:=Sample.strict_parser) composed <> [])
    as Hinvalid by (vm_compute; discriminate).
  split; [exact Hsource|]. split; [exact Hfound|]. split; [exact Hload|].
  split; [exact Hdefault|]. split; [exact Hvalid|].
  split.
  - destruct (proj1 (bare_model_file_in_default_world Sample.resolve true c _
                       Sample.box _ Sample.default_world Hsource Hfound Hload
                       eq_refl Hdefault eq_refl eq_refl) Hvalid)
      as (world & _ & Hworlds & _ & Hmodels & Hrunners & _).
    exists world. split; [exact Hworlds|]. split; [exact Hmodels|].
    exact Hrunners.
  - split; [exact Hinvalid|].
    exact (proj1 (proj2 (proj2 (bare_model_file_in_default_world
             (H0:=Sample.strict_parser) Sample.resolve true c _ Sample.box _
             Sample.default_world Hsource Hfound Hload eq_refl Hdefault
             eq_refl eq_refl) Hinvalid))).
Defined.

End Examples.

(** * Further properties of the server *)

Module ServerMore.
Import Server ServerProps.

Section Forwarding.

Context {R : Type} `{!SimulationRunner.Engine R}.

Implicit Types (d : ServerPrivate R) (worldIndex : nat).

Lemma runner_at_None_iff d worldIndex :
  runner_at worldIndex d = None <-> length (simRunners d) <= worldIndex.
Proof. unfold runner_at. apply lookup_ge_None. Qed.

(** X1: each of [Running], [Paused], [IterationCount], [EntityCount] and
    [SystemCount] returns [std::nullopt] exactly when the world index is at
    or beyond the number of worlds: for an existing world the answer is
    never absent. *)
Theorem nullopt_iff_out_of_range d worldIndex :
  (Running_world worldIndex d = None <-> length (simRunners d) <= worldIndex)
  /\ (Paused worldIndex d = None <-> length (simRunners d) <= worldIndex)
  /\ (IterationCount worldIndex d = None <-> length (simRunners d) <= worldIndex)
  /\ (EntityCount worldIndex d = None <-> length (simRunners d) <= worldIndex)
  /\ (SystemCount worldIndex d = None <-> length (simRunners d) <= worldIndex).
Proof.
  pose proof (runner_at_None_iff d worldIndex) as Hiff.
  unfold Running_world, Paused, IterationCount, EntityCount, SystemCount.
  destruct (runner_at worldIndex d) as [r|].
  - assert (~ length (simRunners d) <= worldIndex) as Hlt
      by (intros Hge; by apply Hiff in Hge).
    repeat split; intros; done.
  - assert (length (simRunners d) <= worldIndex) as Hge by by apply Hiff.
    repeat split; intros; done.
Qed.

Lemma update_runner_other worldIndex other r d :
  other <> worldIndex ->
  runner_at other (update_runner worldIndex r d) = runner_at other d
  /\ outside_runners (update_runner worldIndex r d) = outside_runners d.
Proof.
  intros Hne. unfold runner_at, outside_runners. cbn.
  rewrite length_insert. split; [|done].
  by apply list_lookup_insert_ne.
Qed.

(** X2: a call that takes a world index works on that world only: the
    runner of every other world, the number of worlds, the running flag,
    the thread handle, the scene and the configuration are after the call
    what they were before it. *)
Theorem indexed_call_local (c : indexed_call) worldIndex other d :
  other <> worldIndex ->
  runner_at other (snd (invoke c worldIndex d)) = runner_at other d
  /\ outside_runners (snd (invoke c worldIndex d)) = outside_runners d.
Proof.
  intros Hne.
  destruct c; cbn; try done;
    unfold RequestRemoveEntity_name, RequestRemoveEntity_entity, SetPaused,
      SetUpdatePeriod;
    destruct (runner_at worldIndex d) as [r|]; cbn; try done.
  - destruct (SimulationRunner.RequestRemoveEntity_name name recursive r).
    by apply update_runner_other.
  - destruct (SimulationRunner.RequestRemoveEntity_entity entity recursive r).
    by apply update_runner_other.
  - by apply update_runner_other.
  - by apply update_runner_other.
Qed.

(** X3: the result of [AddSystem], for both overloads, is decided by the
    running flag first and the world index second: [false] while running,
    otherwise [true] for an existing world and [std::nullopt] for any
    other index; unless the result is [true] the server is unchanged. *)
Theorem AddSystem_result d worldIndex plugin system :
  let answer :=
    if running d then Some false
    else if decide (worldIndex < length (simRunners d)) then Some true
    else None in
  fst (AddSystem_plugin plugin worldIndex d) = answer
  /\ fst (AddSystem_shared system worldIndex d) = answer
  /\ (answer <> Some true ->
      snd (AddSystem_plugin plugin worldIndex d) = d
      /\ snd (AddSystem_shared system worldIndex d) = d).
Proof.
  unfold AddSystem_plugin, AddSystem_shared. cbn zeta.
  destruct (running d); [done|].
  destruct (runner_at worldIndex d) as [r|] eqn:Hr.
  - apply lookup_lt_Some in Hr. by rewrite decide_True.
  - apply runner_at_None_iff in Hr. rewrite decide_False by lia. done.
Qed.

(** X4: [AddSystem], accepted or not, leaves alone the runner of every
    world other than the addressed one, and all of the server outside the
    runners. *)
Theorem AddSystem_local d worldIndex other plugin system :
  other <> worldIndex ->
  runner_at other (snd (AddSystem_plugin plugin worldIndex d)) = runner_at other d
  /\ outside_runners (snd (AddSystem_plugin plugin worldIndex d))
     = outside_runners d
  /\ runner_at other (snd (AddSystem_shared system worldIndex d)) = runner_at other d
  /\ outside_runners (snd (AddSystem_shared system worldIndex d))
     = outside_runners d.
Proof.
  intros Hne. unfold AddSystem_plugin, AddSystem_shared.
  destruct (running d); [done|].
  destruct (runner_at worldIndex d) as [r|]; [|done]. cbn [snd].
  destruct (update_runner_other worldIndex other
              (SimulationRunner.AddSystem_plugin plugin r) d Hne).
  destruct (update_runner_other worldIndex other
              (SimulationRunner.AddSystem_shared system r) d Hne).
  done.
Qed.

(** ** Calls on different worlds *)

Lemma update_runner_same worldIndex r d :
  runner_at worldIndex d = Some r -> update_runner worldIndex r d = d.
Proof.
  intros Hr. unfold update_runner, runner_at in *.
  rewrite list_insert_id by done. by destruct d.
Qed.

Lemma update_runner_commute i j (r1 r2 : R) d :
  i <> j ->
  update_runner j r2 (update_runner i r1 d)
  = update_runner i r1 (update_runner j r2 d).
Proof.
  intros Hne. unfold update_runner. cbn.
  by rewrite list_insert_insert_ne.
Qed.

(** Every per-world call has one shape: on an existing world it computes
    a result and a runner from the runner of that world, otherwise it
    gives a fixed result. *)
Lemma invoke_shape (c : indexed_call) :
  exists (f : R -> returned * R) (v0 : returned),
    forall worldIndex d,
      invoke c worldIndex d
      = match runner_at worldIndex d with
        | Some r => (fst (f r), update_runner worldIndex (snd (f r)) d)
        | None => (v0, d)
        end.
Proof.
  destruct c;
    [ exists (fun r => (ret_optional_bool (Some (SimulationRunner.Running r)), r))
    | exists (fun r => (ret_optional_bool (Some (SimulationRunner.Paused r)), r))
    | exists (fun r => (ret_optional_count (Some (SimulationRunner.IterationCount r)), r))
    | exists (fun r => (ret_optional_count (Some (SimulationRunner.EntityCount r)), r))
    | exists (fun r => (ret_optional_count (Some (SimulationRunner.SystemCount r)), r))
    | exists (fun r => (ret_bool (SimulationRunner.HasEntity name r), r))
    | exists (fun r => (ret_optional_entity (SimulationRunner.EntityByName name r), r))
    | exists (fun r =>
                (ret_bool (fst (SimulationRunner.RequestRemoveEntity_name name recursive r)),
                 snd (SimulationRunner.RequestRemoveEntity_name name recursive r)))
    | exists (fun r =>
                (ret_bool (fst (SimulationRunner.RequestRemoveEntity_entity entity recursive r)),
                 snd (SimulationRunner.RequestRemoveEntity_entity entity recursive r)))
    | exists (fun r => (ret_bool true, SimulationRunner.SetPaused paused r))
    | exists (fun r => (ret_void, SimulationRunner.SetUpdatePeriod updatePeriod r)) ];
    eexists; intros worldIndex d; cbn;
    unfold Running_world, Paused, IterationCount, EntityCount, SystemCount,
      HasEntity, EntityByName, RequestRemoveEntity_name,
      RequestRemoveEntity_entity, SetPaused, SetUpdatePeriod;
    destruct (runner_at worldIndex d) as [r|] eqn:Hr; cbn;
    rewrite ?(update_runner_same _ _ _ Hr); try reflexivity.
  - by destruct (SimulationRunner.RequestRemoveEntity_name name recursive r).
  - by destruct (SimulationRunner.RequestRemoveEntity_entity entity recursive r).
Qed.

(** X15: two per-world calls on different worlds do not see each other:
    in either order each returns the same result, and the server is the
    same after both. *)
Theorem indexed_calls_commute (c1 c2 : indexed_call) i j d :
  i <> j ->
  fst (invoke c1 i d) = fst (invoke c1 i (snd (invoke c2 j d)))
  /\ fst (invoke c2 j d) = fst (invoke c2 j (snd (invoke c1 i d)))
  /\ snd (invoke c2 j (snd (invoke c1 i d)))
     = snd (invoke c1 i (snd (invoke c2 j d))).
Proof.
  intros Hne.
  destruct (invoke_shape c1) as (f1 & v1 & Hc1).
  destruct (invoke_shape c2) as (f2 & v2 & Hc2).
  rewrite !Hc1, !Hc2.
  destruct (runner_at i d) as [r1|] eqn:Hr1;
    destruct (runner_at j d) as [r2|] eqn:Hr2; cbn [fst snd].
  - destruct (update_runner_other i j (f1 r1).2 d) as [Hj _]; [done|].
    destruct (update_runner_other j i (f2 r2).2 d) as [Hi _]; [done|].
    rewrite Hj, Hi, Hr1, Hr2. cbn. by rewrite update_runner_commute.
  - destruct (update_runner_other i j (f1 r1).2 d) as [Hj _]; [done|].
    by rewrite Hj, Hr1, Hr2.
  - destruct (update_runner_other j i (f2 r2).2 d) as [Hi _]; [done|].
    by rewrite Hi, Hr1, Hr2.
  - by rewrite Hr1, Hr2.
Qed.

(** ** [Run] *)

(** X5: a [Run] that finds the server running returns [false], but not
    without effect: every world runner has received [SetPaused(paused)].
    Nothing else of the server changes. *)
Theorem Run_while_running_sets_paused d blocking iterations paused :
  running d = true ->
  Run blocking iterations paused d
    = (returns false, for_each_runner (SimulationRunner.SetPaused paused) d)
  /\ outside_runners (snd (Run blocking iterations paused d))
     = outside_runners d.
Proof.
  intros Hrun. unfold Run. cbn. rewrite Hrun.
  destruct (sigHandlerInitialized d); cbn;
    unfold outside_runners; cbn; by rewrite length_fmap.
Qed.

(** X6: a non-blocking [Run] starts a thread, and has its caller wait
    for it, exactly when the signal handlers exist, the server is not
    running and no thread was ever assigned to [runThread]; the thread is
    for the given number of iterations, and the running flag is not yet
    set when the caller begins to wait.  In every other case the call
    returns [false], having only passed [paused] to the world runners. *)
Theorem nonblocking_Run_result d iterations paused :
  let r := Run false iterations paused d in
  (fst r = waits <->
     sigHandlerInitialized d = true /\ running d = false /\ runThread d = None)
  /\ (fst r = waits ->
      snd r = start_thread (Started iterations)
                (for_each_runner (SimulationRunner.SetPaused paused) d)
      /\ runThread (snd r) = Some (Started iterations)
      /\ threadsCreated (snd r) = S (threadsCreated d)
      /\ running (snd r) = false)
  /\ (fst r <> waits ->
      fst r = returns false
      /\ snd r = for_each_runner (SimulationRunner.SetPaused paused) d).
Proof.
  unfold Run. cbn.
  destruct (sigHandlerInitialized d), (running d) eqn:Hrun, (runThread d); cbn;
    (split; [split; [intros ?|intros (? & ? & ?)]; done|]);
    repeat split; intros; done.
Qed.

(** X7: with an engine whose [Paused] reads what [SetPaused] wrote,
    [SetPaused] on an existing world returns [true] and [Paused] on that
    world then returns the value set. *)
Theorem SetPaused_then_Paused d worldIndex paused :
  (forall b r, SimulationRunner.Paused (SimulationRunner.SetPaused b r) = b) ->
  worldIndex < length (simRunners d) ->
  fst (SetPaused paused worldIndex d) = true
  /\ Paused worldIndex (snd (SetPaused paused worldIndex d)) = Some paused.
Proof.
  intros Hlaw Hlt. unfold SetPaused, Paused, runner_at.
  destruct (lookup_lt_is_Some_2 _ _ Hlt) as [r Hr]. rewrite Hr. cbn.
  rewrite list_lookup_insert_eq by done. by rewrite Hlaw.
Qed.

(** X8: with such an engine, a [Run] that is refused, for want of signal
    handlers or because the server is running, leaves every world in the
    pause state that the call asked for. *)
Theorem refused_Run_pauses_every_world d worldIndex blocking iterations paused :
  (forall b r, SimulationRunner.Paused (SimulationRunner.SetPaused b r) = b) ->
  sigHandlerInitialized d = false \/ running d = true ->
  worldIndex < length (simRunners d) ->
  fst (Run blocking iterations paused d) = returns false
  /\ Paused worldIndex (snd (Run blocking iterations paused d)) = Some paused.
Proof.
  intros Hlaw Hrefused Hlt.
  assert (Run blocking iterations paused d
          = (returns false,
             for_each_runner (SimulationRunner.SetPaused paused) d))
    as ->.
  { unfold Run. cbn.
    destruct Hrefused as [-> | ->]; [done|].
    by destruct (sigHandlerInitialized d). }
  split; [done|]. unfold Paused, runner_at. cbn.
  destruct (lookup_lt_is_Some_2 _ _ Hlt) as [r Hr].
  rewrite list_lookup_fmap, Hr. cbn. by rewrite Hlaw.
Qed.

(** X9: a [RunOnce] that is refused returns [false] after it has touched
    every world runner: each has received [SetPaused(paused)] and, for a
    paused request, the mark of a blocking-paused next step before it. *)
Theorem refused_RunOnce_marks_runners d paused :
  sigHandlerInitialized d = false \/ running d = true ->
  fst (RunOnce paused d) = returns false
  /\ simRunners (snd (RunOnce paused d))
     = (fun r =>
          SimulationRunner.SetPaused paused
            (if paused
             then SimulationRunner.SetNextStepAsBlockingPaused true r
             else r))
       <$> simRunners d
  /\ outside_runners (snd (RunOnce paused d)) = outside_runners d.
Proof.
  intros Hrefused.
  assert (forall d', sigHandlerInitialized d' = sigHandlerInitialized d ->
                     running d' = running d ->
                     Run true 1 paused d'
                     = (returns false,
                        for_each_runner (SimulationRunner.SetPaused paused) d'))
    as Hrun.
  { intros d' Hsig Hrunning. unfold Run. cbn. rewrite Hsig, Hrunning.
    destruct Hrefused as [-> | ->]; [done|].
    by destruct (sigHandlerInitialized d). }
  unfold RunOnce, outside_runners.
  destruct paused; rewrite Hrun by done; cbn;
    rewrite ?length_fmap, <- ?list_fmap_compose; done.
Qed.

End Forwarding.

(** ** The constructor *)

Section Loading.

Context {R : Type} `{!SimulationRunner.Engine R}.

Implicit Types (c : ServerConfig.t) (resolve : string -> string -> string).

Lemma string_nonempty (s : string) : s <> EmptyString -> string_empty s = false.
Proof. by destruct s. Qed.

Lemma existsb_error_sdf (errors : sdf.Errors) :
  existsb is_error_entry (gzerr_sdf <$> errors) = negb (is_empty errors).
Proof. by destruct errors. Qed.

(** When the [switch] is left by [break], nothing was written with
    [gzerr] so far. *)
Lemma load_source_break_quiet `{!sdf.Parser} resolve c (d : ServerPrivate R) :
  match load_source resolve c d with
  | Break _ _ out => existsb is_error_entry out = false
  | Return _ _ => True
  end.
Proof.
  unfold load_source. repeat case_match; simplify_eq; done.
Qed.

(** X10: whatever the source and the parser, a constructor that wrote an
    error to the console has created no world runner. *)
Theorem console_error_means_no_runner `{!sdf.Parser} resolve sigInit c :
  existsb is_error_entry (snd (Server_ctor (R:=R) resolve sigInit c)) = true ->
  simRunners (fst (Server_ctor (R:=R) resolve sigInit c)) = [].
Proof.
  unfold Server.Server_ctor.
  pose proof (load_source_keeps resolve c
                (set_config c (new_ServerPrivate (R:=R) sigInit))) as (Hrs & _).
  pose proof (load_source_break_quiet resolve c
                (set_config c (new_ServerPrivate (R:=R) sigInit))) as Hquiet.
  destruct (load_source _ _ _) as [d out|d errors out]; cbn in *; [done|].
  destruct (is_empty errors) eqn:Hempty; cbn; [|done].
  intros Herror. by rewrite Hquiet in Herror.
Qed.

(** X11: when the file holds a model outside any world and the default
    world text yields a root without worlds, the constructor returns with
    the scene as the parser left it and without world runners; what the
    parser reported about the text is not written to the console. *)
Theorem missing_default_world_aborts_silently `{!sdf.Parser}
    resolve sigInit c fileRoot m root errors :
  let filePath :=
    resolve (ServerConfig.SdfFile c) (ServerConfig.ResourceCache c) in
  ServerConfig.Source c = ServerConfig.kSdfFile ->
  filePath <> EmptyString ->
  sdf.Load filePath = (fileRoot, []) ->
  sdf.model fileRoot = Some m ->
  sdf.LoadSdfString DefaultWorld = (root, errors) ->
  sdf.worlds root = [] ->
  Server_ctor (R:=R) resolve sigInit c
    = (set_sdfRoot root (set_config c (new_ServerPrivate sigInit)),
       [gzmsg ("Loading SDF world file[" +:+ filePath +:+ "]." +:+ nl)]).
Proof.
  intros filePath Hsource Hfound Hload Hmodel Hdefault Hworlds.
  unfold Server.Server_ctor, load_source. rewrite Hsource. fold filePath.
  rewrite (string_nonempty _ Hfound), Hload. cbn [is_empty].
  rewrite Hmodel, Hdefault. unfold sdf.WorldByIndex. by rewrite Hworlds.
Qed.

(** X12: when the world file is found and the parser reports errors for
    it, the constructor lists these errors after the loading message and
    keeps nothing of what was read: the scene of the server stays the
    empty root, and there is no world runner. *)
Theorem file_errors_leave_empty_scene `{!sdf.Parser}
    resolve sigInit c fileRoot errors :
  let filePath :=
    resolve (ServerConfig.SdfFile c) (ServerConfig.ResourceCache c) in
  ServerConfig.Source c = ServerConfig.kSdfFile ->
  filePath <> EmptyString ->
  sdf.Load filePath = (fileRoot, errors) ->
  errors <> [] ->
  Server_ctor (R:=R) resolve sigInit c
    = (set_config c (new_ServerPrivate sigInit),
       gzmsg ("Loading SDF world file[" +:+ filePath +:+ "]." +:+ nl)
       :: (gzerr_sdf <$> errors)).
Proof.
  intros filePath Hsource Hfound Hload Herrors.
  unfold Server.Server_ctor, load_source. rewrite Hsource. fold filePath.
  rewrite (string_nonempty _ Hfound), Hload.
  by destruct errors.
Qed.

(** X13: when the text of an inline source has errors, the constructor
    lists them after one message and creates no world runner; unlike for a
    file, the scene of the server is the root as the parser left it. *)
Theorem string_errors_keep_parsed_scene `{!sdf.Parser}
    resolve sigInit c root errors :
  ServerConfig.Source c = ServerConfig.kSdfString ->
  sdf.LoadSdfString (ServerConfig.SdfString c) = (root, errors) ->
  errors <> [] ->
  fst (Server_ctor (R:=R) resolve sigInit c)
    = set_sdfRoot root (set_config c (new_ServerPrivate sigInit))
  /\ exists msg,
       snd (Server_ctor (R:=R) resolve sigInit c)
       = gzmsg msg :: (gzerr_sdf <$> errors).
Proof.
  intros Hsource Hload Herrors.
  unfold Server.Server_ctor, load_source. rewrite Hsource, Hload.
  destruct errors; [done|]. cbn. eauto.
Qed.

(** X14: for a source given as a parsed root the constructor consults
    neither the parser nor the file resolver, and writes one message and no
    error: two servers built from it with different parsers and resolvers
    are the same. *)
Theorem parsed_root_needs_no_parser
    (P1 P2 : sdf.Parser) resolve1 resolve2 sigInit c :
  ServerConfig.Source c = ServerConfig.kSdfRoot ->
  Server_ctor (R:=R) (H0:=P1) resolve1 sigInit c
    = Server_ctor (R:=R) (H0:=P2) resolve2 sigInit c
  /\ snd (Server_ctor (R:=R) (H0:=P1) resolve1 sigInit c)
     = [gzmsg ("Loading SDF world from SDF DOM." +:+ nl)].
Proof.
  intros Hsource. unfold Server.Server_ctor, load_source.
  by rewrite Hsource.
Qed.

End Loading.
End ServerMore.

(** * The further properties on the sample engine *)

Module MoreExamples.
Import Server ServerMore.

#[local] Existing Instance Sample.engine.
#[local] Existing Instance Sample.parser.

Abbreviation worlds2 := Sample.two_world_server.

Lemma sample_pause_law :
  forall b r, SimulationRunner.Paused (SimulationRunner.SetPaused b r) = b.
Proof. intros b r. reflexivity. Defined.

Lemma indexed_call_local_witness :
  1 <> 0
  /\ runner_at 1 (snd (invoke (call_SetPaused true) 0 worlds2)) = runner_at 1 worlds2
  /\ Paused 0 (snd (invoke (call_SetPaused true) 0 worlds2)) = Some true.
Proof.
  assert (1 <> 0) as Hne by lia.
  split; [exact Hne|].
  split; [|reflexivity].
  exact (proj1 (indexed_call_local (call_SetPaused true) 0 1 worlds2 Hne)).
Defined.

Lemma AddSystem_local_witness :
  0 <> 1
  /\ runner_at 0 (snd (AddSystem_plugin 9%N 1 worlds2)) = runner_at 0 worlds2
  /\ SystemCount 1 (snd (AddSystem_plugin 9%N 1 worlds2)) = Some 1%N.
Proof.
  assert (0 <> 1) as Hne by lia.
  split; [exact Hne|].
  split; [|reflexivity].
  exact (proj1 (AddSystem_local worlds2 1 0 9%N 9%N Hne)).
Defined.

Lemma Run_while_running_sets_paused_witness :
  running Sample.running_server = true
  /\ Paused 0 Sample.running_server = Some false
  /\ fst (Run true 1 true Sample.running_server) = returns false
  /\ Paused 0 (snd (Run true 1 true Sample.running_server)) = Some true.
Proof.
  assert (running Sample.running_server = true) as Hrun by reflexivity.
  split; [exact Hrun|]. split; [reflexivity|].
  destruct (Run_while_running_sets_paused Sample.running_server true 1 true Hrun)
    as [Hret _].
  rewrite Hret. split; reflexivity.
Defined.

Lemma SetPaused_then_Paused_witness :
  1 < length (simRunners worlds2)
  /\ Paused 1 (snd (SetPaused true 1 worlds2)) = Some true.
Proof.
  assert (1 < length (simRunners worlds2)) as Hlt by (vm_compute; lia).
  split; [exact Hlt|].
  exact (proj2 (SetPaused_then_Paused worlds2 1 true sample_pause_law Hlt)).
Defined.

Lemma refused_Run_pauses_every_world_witness :
  sigHandlerInitialized (Sample.server false) = false
  /\ 0 < length (simRunners (Sample.server false))
  /\ Paused 0 (snd (Run false 10 true (Sample.server false))) = Some true.
Proof.
  assert (sigHandlerInitialized (Sample.server false) = false) as Hsig
    by reflexivity.
  assert (0 < length (simRunners (Sample.server false))) as Hlt
    by (vm_compute; lia).
  split; [exact Hsig|]. split; [exact Hlt|].
  exact (proj2 (refused_Run_pauses_every_world (Sample.server false) 0 false
                  10 true sample_pause_law (or_introl Hsig) Hlt)).
Defined.

Lemma refused_RunOnce_marks_runners_witness :
  running Sample.running_server = true
  /\ fst (RunOnce true Sample.running_server) = returns false
  /\ Sample.nextStepBlockingPaused
     <$> simRunners (snd (RunOnce true Sample.running_server)) = [true].
Proof.
  assert (running Sample.running_server = true) as Hrun by reflexivity.
  split; [exact Hrun|].
  destruct (refused_RunOnce_marks_runners Sample.running_server true
              (or_intror Hrun)) as (Hret & Hrunners & _).
  split; [exact Hret|]. rewrite Hrunners. reflexivity.
Defined.

Lemma console_error_means_no_runner_witness :
  existsb is_error_entry
    (snd (Server_ctor Sample.resolve true (Sample.file_config "nowhere.sdf")))
  = true
  /\ simRunners
       (fst (Server_ctor Sample.resolve true (Sample.file_config "nowhere.sdf")))
     = [].
Proof.
  assert (existsb is_error_entry
            (snd (Server_ctor Sample.resolve true
                    (Sample.file_config "nowhere.sdf"))) = true) as Herror
    by reflexivity.
  split; [exact Herror|].
  exact (console_error_means_no_runner Sample.resolve true
           (Sample.file_config "nowhere.sdf") Herror).
Defined.

Lemma missing_default_world_aborts_silently_witness :
  let c := Sample.file_config "box.sdf" in
  sdf.LoadSdfString (Parser:=Sample.worldless_parser) DefaultWorld
    = (sdf.empty, [Sample.unreadable])
  /\ Server_ctor (H0:=Sample.worldless_parser) Sample.resolve true c
     = (set_sdfRoot sdf.empty (set_config c (new_ServerPrivate true)),
        [gzmsg ("Loading SDF world file[box.sdf]." +:+ nl)]).
Proof.
  intros c. split; [reflexivity|].
  apply (missing_default_world_aborts_silently (H0:=Sample.worldless_parser)
           Sample.resolve true c
           {| sdf.worlds := []; sdf.model := Some Sample.box |} Sample.box
           sdf.empty [Sample.unreadable]);
    [reflexivity | vm_compute; discriminate | reflexivity | reflexivity
    | reflexivity | reflexivity].
Defined.

Lemma file_errors_leave_empty_scene_witness :
  let c := Sample.file_config "broken.sdf" in
  sdf.Load "broken.sdf" = (sdf.empty, [Sample.unreadable])
  /\ Server_ctor Sample.resolve_any true c
     = (set_config c (new_ServerPrivate true),
        [gzmsg ("Loading SDF world file[broken.sdf]." +:+ nl);
         gzerr_sdf Sample.unreadable]).
Proof.
  intros c. split; [reflexivity|].
  apply (file_errors_leave_empty_scene Sample.resolve_any true c sdf.empty
           [Sample.unreadable]);
    [reflexivity | vm_compute; discriminate | reflexivity | discriminate].
Defined.

Lemma string_errors_keep_parsed_scene_witness :
  let c := Sample.string_config "<sdf>" in
  sdf.LoadSdfString "<sdf>" = (sdf.empty, [Sample.unreadable])
  /\ fst (Server_ctor Sample.resolve true c)
     = set_sdfRoot sdf.empty (set_config c (new_ServerPrivate true)).
Proof.
  intros c. split; [reflexivity|].
  apply (string_errors_keep_parsed_scene Sample.resolve true c sdf.empty
           [Sample.unreadable]);
    [reflexivity | reflexivity | discriminate].
Defined.

Lemma parsed_root_needs_no_parser_witness :
  let c := Sample.root_config Sample.two_worlds in
  ServerConfig.Source c = ServerConfig.kSdfRoot
  /\ Server_ctor (H0:=Sample.parser) Sample.resolve true c
     = Server_ctor (H0:=Sample.worldless_parser) Sample.resolve_any true c.
Proof.
  intros c.
  assert (ServerConfig.Source c = ServerConfig.kSdfRoot) as Hsource
    by reflexivity.
  split; [exact Hsource|].
  exact (proj1 (parsed_root_needs_no_parser Sample.parser
                  Sample.worldless_parser Sample.resolve Sample.resolve_any
                  true c Hsource)).
Defined.

Lemma indexed_calls_commute_witness :
  0 <> 1
  /\ snd (invoke (call_RequestRemoveEntity_name "box" true) 0
            (snd (invoke (call_SetPaused true) 1 worlds2)))
     = snd (invoke (call_SetPaused true) 1
              (snd (invoke (call_RequestRemoveEntity_name "box" true) 0 worlds2)))
  /\ fst (invoke (call_RequestRemoveEntity_name "box" true) 0 worlds2)
     = ret_bool true.
Proof.
  assert (0 <> 1) as Hne by lia.
  split; [exact Hne|].
  destruct (indexed_calls_commute (call_RequestRemoveEntity_name "box" true)
              (call_SetPaused true) 0 1 worlds2 Hne) as (_ & _ & Hstate).
  split; [|reflexivity].
  symmetry. exact Hstate.
Defined.

End MoreExamples.
